(** * yt-transcript-service: the ID resolver, the transcript fetcher and the
    request handler of [api/youtube_transcript.py], embedded and verified.

    Python values are modelled by [pyval]; a [str] is the list of its code
    points; a [dict] is an association list in insertion order.  Calls that
    leave the module (the captioning provider, [json], [re] on a value that is
    not a string) are fields of the class [Externals]; the calls a run makes
    are recorded in a log, so that "never contacts the provider" is a
    statement about that log.  Console output ([print]) is not modelled.
    Exceptions are those derived from [Exception]. *)

From Stdlib Require Import String Ascii.
From Stdlib Require Import List NArith ZArith Bool Arith Lia.
From Stdlib Require Import Floats.SpecFloat.
Import ListNotations.

#[local] Set Warnings "-register-all,-abstract-large-number".

Set Implicit Arguments.

(* ------------------------------------------------------------------ *)
(** ** Strings *)

Module PyStr.

(** A Python [str]: its code points, in order. *)
Definition pystr : Type := list N.

(** The [str] written by an ASCII literal of the source. *)
Definition py (s : string) : pystr :=
  map N_of_ascii (list_ascii_of_string s).
Arguments py s%_string.

Definition LF : N := 10%N.

Fixpoint eqb (s t : pystr) : bool :=
  match s, t with
  | [], [] => true
  | c :: s', d :: t' => N.eqb c d && eqb s' t'
  | _, _ => false
  end.

(** [strip_prefix p s] is what follows [p] in [s] when [s] starts with [p]. *)
Fixpoint strip_prefix (p s : pystr) : option pystr :=
  match p with
  | [] => Some s
  | c :: p' =>
      match s with
      | d :: s' => if N.eqb c d then strip_prefix p' s' else None
      | [] => None
      end
  end.

(** The characters [str.split()] treats as white space: CPython's
    [Py_UNICODE_ISSPACE]. *)
Definition isspace (c : N) : bool :=
  (((9 <=? c) && (c <=? 13)) || ((28 <=? c) && (c <=? 32))
   || (c =? 133) || (c =? 160) || (c =? 5760)
   || ((8192 <=? c) && (c <=? 8202))
   || (c =? 8232) || (c =? 8233) || (c =? 8239) || (c =? 8287)
   || (c =? 12288))%N.

(** [split_go cur s]: the scan of [str.split()] with no separator; [cur] is
    the word being collected (reversed), if any. *)
Fixpoint split_go (cur : option pystr) (s : pystr) : list pystr :=
  match s with
  | [] => match cur with Some w => [rev w] | None => [] end
  | c :: s' =>
      if isspace c then
        match cur with
        | Some w => rev w :: split_go None s'
        | None => split_go None s'
        end
      else
        split_go (Some (c :: match cur with Some w => w | None => [] end)) s'
  end.

Definition split (s : pystr) : list pystr := split_go None s.

(** The spec's words, "the number of whitespace-delimited tokens": the number
    of positions where a maximal run of characters that are not white space
    starts.  [prev_space] tells whether the previous character was white
    space (or there was none). *)
Fixpoint count_token_starts (prev_space : bool) (s : pystr) : nat :=
  match s with
  | [] => 0
  | c :: s' =>
      (if prev_space && negb (isspace c) then 1 else 0)
      + count_token_starts (isspace c) s'
  end.

Definition whitespace_tokens (s : pystr) : nat := count_token_starts true s.

End PyStr.
Export PyStr.

(* ------------------------------------------------------------------ *)
(** ** Values *)

Inductive pyval : Type :=
| PNone
| PBool (b : bool)
| PInt (z : Z)
| PFloat (f : spec_float)
| PStr (s : pystr)
| PList (l : list pyval)
| PDict (d : list (pystr * pyval)).

Definition dict : Type := list (pystr * pyval).

(** [d[k]] when present. *)
Fixpoint dict_get (d : dict) (k : pystr) : option pyval :=
  match d with
  | [] => None
  | (k', v) :: d' => if PyStr.eqb k' k then Some v else dict_get d' k
  end.

(** [d.get(k, default)]. *)
Definition dict_get_default (d : dict) (k : pystr) (default : pyval) : pyval :=
  match dict_get d k with Some v => v | None => default end.

(** [{**d, k: v}]: [k] keeps its place when already present. *)
Fixpoint dict_set (d : dict) (k : pystr) (v : pyval) : dict :=
  match d with
  | [] => [(k, v)]
  | (k', v') :: d' =>
      if PyStr.eqb k' k then (k', v) :: d' else (k', v') :: dict_set d' k v
  end.

(** Truth value of an object, as [not x] and [if x] test it. *)
Definition truthy (v : pyval) : bool :=
  match v with
  | PNone => false
  | PBool b => b
  | PInt z => negb (Z.eqb z 0)
  | PFloat f => match f with S754_zero _ => false | _ => true end
  | PStr s => match s with [] => false | _ => true end
  | PList l => match l with [] => false | _ => true end
  | PDict d => match d with [] => false | _ => true end
  end.

(** [v == s] for a string literal [s]. *)
Definition py_eq_str (v : pyval) (s : pystr) : bool :=
  match v with
  | PStr t => PyStr.eqb t s
  | _ => false
  end.

(** An exception, with what [str(e)] gives. *)
Inductive exn : Type := Exception (msg : pystr).

Definition exn_str (e : exn) : pystr := match e with Exception m => m end.

(* ------------------------------------------------------------------ *)
(** ** Regular expressions: the fragment of [re] the patterns use *)

Module Re.

Inductive regex : Type :=
| Lit (s : pystr)                 (* literal text *)
| CharClass (p : N -> bool)       (* [...] *)
| Seq (r1 r2 : regex)
| Alt (r1 r2 : regex)             (* r1|r2 *)
| Repeat (n : nat) (r : regex)    (* r{n} *)
| Group (i : nat) (r : regex)     (* the i-th capturing group *)
| Bol                             (* ^ *)
| Eol.                            (* $ *)

Definition captures : Type := list (nat * pystr).

(** What remains to be matched: position, rest of the input, captures. *)
Definition cont (R : Type) : Type := nat -> pystr -> captures -> option R.

(** Backtracking matcher in continuation-passing style: alternatives are
    tried in order, and the first one after which the rest of the pattern
    matches wins.  Without [re.MULTILINE], [^] matches at position 0 only and
    [$] at the end of the string or just before a newline that ends it. *)
Fixpoint rmatch {R : Type} (r : regex) (k : cont R) : cont R :=
  match r with
  | Lit s => fun pos rest caps =>
      match strip_prefix s rest with
      | Some rest' => k (pos + length s) rest' caps
      | None => None
      end
  | CharClass p => fun pos rest caps =>
      match rest with
      | c :: rest' => if p c then k (S pos) rest' caps else None
      | [] => None
      end
  | Seq r1 r2 => rmatch r1 (rmatch r2 k)
  | Alt r1 r2 => fun pos rest caps =>
      match rmatch r1 k pos rest caps with
      | Some x => Some x
      | None => rmatch r2 k pos rest caps
      end
  | Repeat n r1 => Nat.iter n (rmatch r1) k
  | Group i r1 => fun pos rest caps =>
      rmatch r1
        (fun pos' rest' caps' =>
           k pos' rest' ((i, firstn (pos' - pos) rest) :: caps'))
        pos rest caps
  | Bol => fun pos rest caps => if Nat.eqb pos 0 then k pos rest caps else None
  | Eol => fun pos rest caps =>
      match rest with
      | [] => k pos rest caps
      | [c] => if N.eqb c LF then k pos rest caps else None
      | _ => None
      end
  end.

(** Number of capturing groups of a pattern: [len(match.groups())]. *)
Fixpoint ngroups (r : regex) : nat :=
  match r with
  | Seq r1 r2 | Alt r1 r2 => ngroups r1 + ngroups r2
  | Repeat _ r1 => ngroups r1
  | Group _ r1 => S (ngroups r1)
  | _ => 0
  end.

(** A match object. *)
Record Match : Type := mkMatch {
  m_pattern : regex;
  m_group0 : pystr;          (* match.group(0) *)
  m_captures : captures
}.

Fixpoint capture_get (caps : captures) (i : nat) : option pystr :=
  match caps with
  | [] => None
  | (j, s) :: caps' => if Nat.eqb j i then Some s else capture_get caps' i
  end.

(** [match.group(i)] for [i >= 1]: [None] when the group took no part. *)
Definition group (m : Match) (i : nat) : option pystr :=
  capture_get (m_captures m) i.

Definition groups_len (m : Match) : nat := ngroups (m_pattern m).

(** The continuation a match ends with: the match object of pattern [r] for
    a match that started at [pos], where [rest] was the input. *)
Definition finish (r : regex) (pos : nat) (rest : pystr) : cont Match :=
  fun pos' _ caps => Some (mkMatch r (firstn (pos' - pos) rest) caps).

(** The match of [r] that starts exactly at [pos], where [rest] is the input
    from [pos] on. *)
Definition match_at (r : regex) (pos : nat) (rest : pystr) : option Match :=
  rmatch r (finish r pos rest) pos rest [].

(** [re.search]: the match at the leftmost position that has one; the
    positions run from 0 to [len(s)] included. *)
Fixpoint search_from (r : regex) (pos : nat) (rest : pystr) : option Match :=
  match match_at r pos rest with
  | Some m => Some m
  | None =>
      match rest with
      | [] => None
      | _ :: rest' => search_from r (S pos) rest'
      end
  end.

Definition search (r : regex) (s : pystr) : option Match := search_from r 0 s.

End Re.

(* ------------------------------------------------------------------ *)
(** ** ID resolver: [extract_video_id] *)

(** [[a-zA-Z0-9_-]] *)
Definition is_id_char (c : N) : bool :=
  (((97 <=? c) && (c <=? 122)) || ((65 <=? c) && (c <=? 90))
   || ((48 <=? c) && (c <=? 57)) || (c =? 95) || (c =? 45))%N.

Definition url_shapes : list pystr :=
  [py "youtube.com/watch?v="; py "youtu.be/"; py "youtube.com/embed/"].

(** [(?:youtube\.com\/watch\?v=|youtu\.be\/|youtube\.com\/embed\/)([a-zA-Z0-9_-]{11})] *)
Definition pattern_url : Re.regex :=
  Re.Seq
    (Re.Alt (Re.Lit (py "youtube.com/watch?v="))
       (Re.Alt (Re.Lit (py "youtu.be/")) (Re.Lit (py "youtube.com/embed/"))))
    (Re.Group 1 (Re.Repeat 11 (Re.CharClass is_id_char))).

(** [^[a-zA-Z0-9_-]{11}$] *)
Definition pattern_id : Re.regex :=
  Re.Seq Re.Bol (Re.Seq (Re.Repeat 11 (Re.CharClass is_id_char)) Re.Eol).

Definition patterns : list Re.regex := [pattern_url; pattern_id].

(** The loop over the patterns: the first one that [re.search] finds decides,
    [group(1)] when the pattern has groups and the whole match otherwise. *)
Fixpoint first_match (ps : list Re.regex) (url : pystr) : option pystr :=
  match ps with
  | [] => None
  | pattern :: ps' =>
      match Re.search pattern url with
      | Some m =>
          if 0 <? Re.groups_len m then Re.group m 1 else Some (Re.m_group0 m)
      | None => first_match ps' url
      end
  end.

(** [extract_video_id] on a [str]; [None] is Python's [None]. *)
Definition extract_video_id_str (url : pystr) : option pystr :=
  first_match patterns url.

(* ------------------------------------------------------------------ *)
(** ** Effects: exceptions and the log of outgoing calls *)

(** The calls whose occurrence the specification speaks about. *)
Inductive call : Type :=
| call_get_transcript (youtube_url : pyval)
| call_list_transcripts (video_id : pystr)
| call_find_manually_created_transcript (language_codes : list pystr)
| call_find_generated_transcript (language_codes : list pystr)
| call_fetch (language_code : pystr)
| call_iter_transcripts.

(** A computation either raises or returns, and logs the calls it made. *)
Definition M (A : Type) : Type := (exn + A) * list call.

Definition ret {A} (a : A) : M A := (inr a, []).

Definition raise {A} (e : exn) : M A := (inl e, []).

Definition bind {A B} (m : M A) (f : A -> M B) : M B :=
  match m with
  | (inl e, l) => (inl e, l)
  | (inr a, l) => let (r, l') := f a in (r, l ++ l')
  end.

(** [try: m except Exception as e: h e] *)
Definition try_except {A} (m : M A) (h : exn -> M A) : M A :=
  match m with
  | (inl e, l) => let (r, l') := h e in (r, l ++ l')
  | (inr a, l) => (inr a, l)
  end.

(** An outgoing call [c] whose outcome is [r]. *)
Definition perform {A} (c : call) (r : exn + A) : M A := (r, [c]).

(** A local operation that may raise. *)
Definition lift {A} (r : exn + A) : M A := (r, []).

Notation "x <- m ;; k" := (bind m (fun x => k))
  (at level 61, m at next level, right associativity).

Definition outcome {A} (m : M A) : exn + A := fst m.
Definition calls {A} (m : M A) : list call := snd m.

(* ------------------------------------------------------------------ *)
(** ** The collaborators *)

Section Provider.

Variable Segment : Type.

(** A caption track of the provider: its language code and what [fetch()]
    does. *)
Record Transcript : Type := {
  language_code : pystr;
  fetch : exn + list Segment
}.

(** What [list_transcripts] returns: the two finders and the tracks in
    iteration order. *)
Record TranscriptList : Type := {
  find_manually_created_transcript : list pystr -> exn + Transcript;
  find_generated_transcript : list pystr -> exn + Transcript;
  iter_transcripts : list Transcript
}.

End Provider.

(** Everything the module calls and does not define. *)
Class Externals : Type := {
  Segment : Type;
  (* YouTubeTranscriptApi.list_transcripts *)
  list_transcripts : pystr -> exn + TranscriptList Segment;
  (* TextFormatter().format_transcript *)
  format_transcript : list Segment -> pystr;
  (* the TypeError of re.search on a value that is not a string *)
  re_type_error : pyval -> exn;
  (* json.loads on a str *)
  json_loads : pystr -> exn + pyval;
  (* the TypeError of json.loads on a value that is not a string *)
  json_type_error : pyval -> exn;
  (* the AttributeError of x.get on a value that is not a dict *)
  attribute_error : pyval -> exn;
  (* json.dumps *)
  json_dumps : pyval -> pystr
}.

(* ------------------------------------------------------------------ *)
(** ** Transcript fetcher and request handler *)

Section Service.

Context {E : Externals}.

(** [extract_video_id(url)]: [re.search] raises on anything but a string. *)
Definition extract_video_id (url : pyval) : exn + option pystr :=
  match url with
  | PStr s => inr (extract_video_id_str s)
  | _ => inl (re_type_error url)
  end.

(** [x.get(k)] *)
Definition py_get (x : pyval) (k : pystr) : exn + pyval :=
  match x with
  | PDict d => inr (dict_get_default d k PNone)
  | _ => inl (attribute_error x)
  end.

(** [json.loads(x)] *)
Definition loads (x : pyval) : exn + pyval :=
  match x with
  | PStr s => json_loads s
  | _ => inl (json_type_error x)
  end.

(** [t.fetch()] *)
Definition do_fetch (t : Transcript Segment) : M (list Segment) :=
  perform (call_fetch (language_code t)) (fetch t).

(** The loop over the preferred languages (lines 43-51).  The result is the
    pair of [transcript] and [transcript_language], both still [None] when
    no iteration reached its [break]. *)
Fixpoint manual_loop (transcript_list : TranscriptList Segment)
    (lang_codes : list pystr) : M (option (list Segment * pystr)) :=
  match lang_codes with
  | [] => ret None
  | lang_code :: rest =>
      try_except
        (manual_transcripts <-
           perform (call_find_manually_created_transcript [lang_code])
             (find_manually_created_transcript transcript_list [lang_code]) ;;
         transcript <- do_fetch manual_transcripts ;;
         ret (Some (transcript, lang_code)))
        (fun _ => manual_loop transcript_list rest)
  end.

Definition preferred_languages : list pystr :=
  [py "en"; py "en-US"; py "en-GB"].

(** The body of the inner [try] (lines 42-68): the transcript chosen and its
    language tag, or the exception that leaves the block. *)
Definition select_transcript (transcript_list : TranscriptList Segment)
    : M (list Segment * pystr) :=
  found <- manual_loop transcript_list preferred_languages ;;
  match found with
  | Some (seg :: segs, transcript_language) =>
      (* [not transcript] is false *)
      ret (seg :: segs, transcript_language)
  | _ =>
      try_except
        (auto_transcript <-
           perform (call_find_generated_transcript [py "en"])
             (find_generated_transcript transcript_list [py "en"]) ;;
         transcript <- do_fetch auto_transcript ;;
         ret (transcript, py "en (auto-generated)"))
        (fun _ =>
           available_transcripts <-
             perform call_iter_transcripts
               (inr (iter_transcripts transcript_list)) ;;
           match available_transcripts with
           | first :: _ =>
               transcript <- do_fetch first ;;
               ret (transcript, language_code first)
           | [] => raise (Exception (py "No transcripts available"))
           end)
  end.

Definition invalid_result : pyval :=
  PDict [ (py "success", PBool false);
          (py "error", PStr (py "Invalid YouTube URL or video ID"));
          (py "videoId", PNone) ].

Definition fetch_failure (transcript_error : exn) (video_id : pystr) : pyval :=
  PDict [ (py "success", PBool false);
          (py "error",
           PStr (py "Could not fetch transcript: " ++ exn_str transcript_error));
          (py "videoId", PStr video_id) ].

(** The result of the outermost handler; [video_id] is [None] when the name
    is not among the locals yet. *)
Definition outer_failure (e : exn) (video_id : option pystr) : pyval :=
  PDict [ (py "success", PBool false);
          (py "error", PStr (exn_str e));
          (py "videoId",
           match video_id with Some v => PStr v | None => PNone end) ].

Definition success_result (video_id : pystr) (formatted_text : pystr)
    (transcript_language : pystr) : pyval :=
  PDict [ (py "success", PBool true);
          (py "transcript", PStr formatted_text);
          (py "videoTitle", PStr (py "YouTube Video " ++ video_id));
          (py "videoId", PStr video_id);
          (py "language", PStr transcript_language);
          (py "wordCount",
           PInt (Z.of_nat (List.length (split formatted_text)))) ].

(** [get_transcript(youtube_url)] *)
Definition get_transcript (youtube_url : pyval) : M pyval :=
  match extract_video_id youtube_url with
  | inl e => ret (outer_failure e None)
  | inr None | inr (Some []) => ret invalid_result
  | inr (Some video_id) =>
      try_except
        (transcript_list <-
           perform (call_list_transcripts video_id)
             (list_transcripts video_id) ;;
         selected <-
           try_except
             (chosen <- select_transcript transcript_list ;;
              ret (inr chosen))
             (fun transcript_error =>
                ret (inl (fetch_failure transcript_error video_id))) ;;
         match selected with
         | inl failure => ret failure
         | inr (transcript, transcript_language) =>
             let formatted_text := format_transcript transcript in
             ret (success_result video_id formatted_text transcript_language)
         end)
        (fun e => ret (outer_failure e (Some video_id)))
  end.

Definition cors_headers : dict :=
  [ (py "Access-Control-Allow-Origin", PStr (py "*"));
    (py "Access-Control-Allow-Methods", PStr (py "POST, OPTIONS"));
    (py "Access-Control-Allow-Headers", PStr (py "Content-Type")) ].

Definition json_headers : dict :=
  dict_set cors_headers (py "Content-Type") (PStr (py "application/json")).

Definition response (status_code : Z) (headers : dict) (payload : pyval)
    : pyval :=
  PDict [ (py "statusCode", PInt status_code);
          (py "headers", PDict headers);
          (py "body", PStr (json_dumps payload)) ].

Definition error_payload (msg : pystr) : pyval :=
  PDict [ (py "error", PStr msg) ].

(** [handler(event, context)] *)
Definition handler (event : dict) (context : pyval) : M pyval :=
  if py_eq_str (dict_get_default event (py "httpMethod") PNone) (py "OPTIONS")
  then
    ret (response 200 cors_headers
           (PDict [ (py "message", PStr (py "CORS preflight")) ]))
  else if negb (py_eq_str (dict_get_default event (py "httpMethod") PNone)
                  (py "POST"))
  then
    ret (response 405 json_headers (error_payload (py "Method not allowed")))
  else
    try_except
      (body <- lift (loads (dict_get_default event (py "body")
                              (PStr (py "{}")))) ;;
       youtube_url <- lift (py_get body (py "youtubeUrl")) ;;
       if negb (truthy youtube_url) then
         ret (response 400 json_headers
                (error_payload (py "youtubeUrl is required")))
       else
         result <-
           (_ <- perform (call_get_transcript youtube_url) (inr tt) ;;
            get_transcript youtube_url) ;;
         success <- lift (py_get result (py "success")) ;;
         let status_code := if truthy success then 200%Z else 400%Z in
         ret (response status_code json_headers result))
      (fun _ =>
         ret (response 500 json_headers
                (error_payload (py "Internal server error")))).

End Service.

(* ------------------------------------------------------------------ *)
(** ** Direct readings of the two patterns, used to reason about them *)

(** [([a-zA-Z0-9_-]{11})] *)
Definition token_group : Re.regex :=
  Re.Group 1 (Re.Repeat 11 (Re.CharClass is_id_char)).

(** [n] characters of the class [p] at the head of [rest]; what follows. *)
Fixpoint class_run (p : N -> bool) (n : nat) (rest : pystr) : option pystr :=
  match n with
  | 0 => Some rest
  | S n' =>
      match rest with
      | c :: rest' => if p c then class_run p n' rest' else None
      | [] => None
      end
  end.

(** The token after [shape] when [rest] starts with [shape] and eleven
    allowed characters. *)
Definition shape_token (shape rest : pystr) : option pystr :=
  match strip_prefix shape rest with
  | Some r =>
      match class_run is_id_char 11 r with
      | Some _ => Some (firstn 11 r)
      | None => None
      end
  | None => None
  end.

Fixpoint any_shape_token (shapes : list pystr) (rest : pystr) : option pystr :=
  match shapes with
  | [] => None
  | shape :: shapes' =>
      match shape_token shape rest with
      | Some t => Some t
      | None => any_shape_token shapes' rest
      end
  end.

(** The token after the leftmost place of [s] where a shape and eleven
    allowed characters stand. *)
Fixpoint first_shape_token (shapes : list pystr) (s : pystr) : option pystr :=
  match any_shape_token shapes s with
  | Some t => Some t
  | None =>
      match s with
      | [] => None
      | _ :: s' => first_shape_token shapes s'
      end
  end.

(** What [^[a-zA-Z0-9_-]{11}$] accepts: eleven allowed characters, and then
    the end of the string or one final newline. *)
Definition bare_id_match (s : pystr) : bool :=
  match class_run is_id_char 11 s with
  | Some [] => true
  | Some [c] => N.eqb c LF
  | _ => false
  end.

(** The words of the specification for the inputs that match no rule: the
    shapes as it names them, and "exactly 11 allowed characters". *)
Definition spec_shapes : list pystr :=
  [py "watch?v="; py "youtu.be/"; py "embed/"].

Definition exactly_eleven_allowed (s : pystr) : bool :=
  Nat.eqb (List.length s) 11 && forallb is_id_char s.

Definition matches_no_rule (s : pystr) : bool :=
  match first_shape_token spec_shapes s with
  | Some _ => false
  | None => negb (exactly_eleven_allowed s)
  end.

(** The field [k] of a result or response. *)
Definition field (r : pyval) (k : pystr) : option pyval :=
  match r with
  | PDict d => dict_get d k
  | _ => None
  end.

Definition has_field (r : pyval) (k : pystr) : bool :=
  match field r k with Some _ => true | None => false end.

(** The invariant of a TranscriptResult: a boolean [success]; [error] is
    there exactly when it is false, the transcript fields exactly when it is
    true. *)
Definition TranscriptResult_invariant (r : pyval) : Prop :=
  exists b : bool,
    field r (py "success") = Some (PBool b)
    /\ has_field r (py "error") = negb b
    /\ has_field r (py "transcript") = b
    /\ has_field r (py "language") = b
    /\ has_field r (py "wordCount") = b
    /\ has_field r (py "videoTitle") = b.

(** The fixed cross-origin headers are among the headers of a response. *)
Definition cors_present (resp : pyval) : Prop :=
  exists hs,
    field resp (py "headers") = Some (PDict hs)
    /\ dict_get hs (py "Access-Control-Allow-Origin") = Some (PStr (py "*"))
    /\ dict_get hs (py "Access-Control-Allow-Methods")
       = Some (PStr (py "POST, OPTIONS"))
    /\ dict_get hs (py "Access-Control-Allow-Headers")
       = Some (PStr (py "Content-Type")).

Section Attempts.

Context {E : Externals}.

(** What looking for the manual transcript of one language and fetching it
    gives. *)
Definition manual_attempt (tl : TranscriptList Segment) (lang : pystr)
    : exn + list Segment :=
  match find_manually_created_transcript tl [lang] with
  | inl e => inl e
  | inr t => fetch t
  end.

(** What looking for the generated English transcript and fetching it
    gives. *)
Definition generated_attempt (tl : TranscriptList Segment)
    : exn + list Segment :=
  match find_generated_transcript tl [py "en"] with
  | inl e => inl e
  | inr t => fetch t
  end.

(** The attempt leaves [transcript] without content: it raised, or the
    fetched transcript has no segment. *)
Definition nothing_obtained (r : exn + list Segment) : Prop :=
  match r with
  | inr (_ :: _) => False
  | _ => True
  end.

(** The pair the loop over [langs] ends with, read off the attempts: the
    first language whose attempt does not raise. *)
Fixpoint first_fetched (tl : TranscriptList Segment) (langs : list pystr)
    : option (list Segment * pystr) :=
  match langs with
  | [] => None
  | lang :: rest =>
      match manual_attempt tl lang with
      | inr segments => Some (segments, lang)
      | inl _ => first_fetched tl rest
      end
  end.

(** The last resort: the first track of the enumeration. *)
Definition first_available (tl : TranscriptList Segment)
    : exn + (list Segment * pystr) :=
  match iter_transcripts tl with
  | first :: _ =>
      match fetch first with
      | inr segments => inr (segments, language_code first)
      | inl e => inl e
      end
  | [] => inl (Exception (py "No transcripts available"))
  end.

(** What the inner [try] block ends with, read off the attempts. *)
Definition selection (tl : TranscriptList Segment)
    : exn + (list Segment * pystr) :=
  match first_fetched tl preferred_languages with
  | Some (seg :: segs, lang) => inr (seg :: segs, lang)
  | _ =>
      match generated_attempt tl with
      | inr segments => inr (segments, py "en (auto-generated)")
      | inl _ => first_available tl
      end
  end.

(** What [get_transcript] returns, read off the attempts. *)
Definition transcript_result (youtube_url : pyval) : pyval :=
  match extract_video_id youtube_url with
  | inl e => outer_failure e None
  | inr None | inr (Some []) => invalid_result
  | inr (Some video_id) =>
      match list_transcripts video_id with
      | inl e => outer_failure e (Some video_id)
      | inr tl =>
          match selection tl with
          | inl e => fetch_failure e video_id
          | inr (segments, lang) =>
              success_result video_id (format_transcript segments) lang
          end
      end
  end.

End Attempts.

(* ------------------------------------------------------------------ *)
(** ** Sample collaborators, for tests and witnesses *)

Module Samples.

Definition not_found : exn := Exception (py "NoTranscriptFound").

Definition track (code : pystr) (segments : list pystr) : Transcript pystr :=
  {| language_code := code; fetch := inr segments |}.

(** A transcript list that answers by language code from two tables. *)
Definition listing (manual generated : list (Transcript pystr))
    (all : list (Transcript pystr)) : TranscriptList pystr :=
  let lookup (tracks : list (Transcript pystr)) (codes : list pystr) :=
    match
      find (fun t => existsb (PyStr.eqb (language_code t)) codes) tracks
    with
    | Some t => inr t
    | None => inl not_found
    end in
  {| find_manually_created_transcript := lookup manual;
     find_generated_transcript := lookup generated;
     iter_transcripts := all |}.

(** [TextFormatter]: the texts of the segments, one per line. *)
Fixpoint join_lines (segments : list pystr) : pystr :=
  match segments with
  | [] => []
  | [s] => s
  | s :: rest => s ++ LF :: join_lines rest
  end.

Definition decode_error : exn := Exception (py "Expecting value").

Definition good_url : pyval := PStr (py "https://youtu.be/dQw4w9WgXcQ").

Definition video_id : pystr := py "dQw4w9WgXcQ".

Definition quote : N := 34%N.

(** The body [{"youtubeUrl": "https://youtu.be/dQw4w9WgXcQ"}]. *)
Definition url_body : pystr :=
  py "{" ++ quote :: py "youtubeUrl" ++ quote :: py ": " ++ quote
    :: py "https://youtu.be/dQw4w9WgXcQ" ++ quote :: py "}".

(** A parser that knows three texts. *)
Definition loads_known (s : pystr) : exn + pyval :=
  if PyStr.eqb s (py "{}") then inr (PDict [])
  else if PyStr.eqb s (py "[]") then inr (PList [])
  else if PyStr.eqb s url_body then
    inr (PDict [ (py "youtubeUrl", good_url) ])
  else inl decode_error.

Definition externals (provider : pystr -> exn + TranscriptList pystr)
    : Externals :=
  {| Segment := pystr;
     list_transcripts := provider;
     format_transcript := join_lines;
     re_type_error := fun _ =>
       Exception (py "expected string or bytes-like object");
     json_loads := loads_known;
     json_type_error := fun _ =>
       Exception (py "the JSON object must be str, bytes or bytearray");
     attribute_error := fun _ =>
       Exception (py "object has no attribute 'get'");
     json_dumps := fun _ => py "<json>" |}.

(** No track at all. *)
Definition no_tracks : pystr -> exn + TranscriptList pystr :=
  fun _ => inr (listing [] [] []).

(** Only a generated English track. *)
Definition generated_only : pystr -> exn + TranscriptList pystr :=
  fun _ =>
    let t := track (py "en") [py "hello world foo"] in
    inr (listing [] [t] [t]).

(** Only a German manual track. *)
Definition german_only : pystr -> exn + TranscriptList pystr :=
  fun _ =>
    let t := track (py "de") [py "hallo welt"] in
    inr (listing [t] [] [t]).

(** A manual en-GB track without segments, and a generated English one. *)
Definition empty_manual_en_GB : pystr -> exn + TranscriptList pystr :=
  fun _ =>
    let m := track (py "en-GB") [] in
    let g := track (py "en") [py "hello"] in
    inr (listing [m] [g] [m; g]).

(** A manual en-GB track with content. *)
Definition manual_en_GB : pystr -> exn + TranscriptList pystr :=
  fun _ =>
    let m := track (py "en-GB") [py "good"; py "day"] in
    let g := track (py "en") [py "hello"] in
    inr (listing [m] [g] [m; g]).

Definition post (body : pystr) : dict :=
  [ (py "httpMethod", PStr (py "POST")); (py "body", PStr body) ].

End Samples.

(** The calls made on a transcript list and its tracks, as opposed to the
    call that obtains the list. *)
Definition selection_call (c : call) : bool :=
  match c with
  | call_find_manually_created_transcript _
  | call_find_generated_transcript _
  | call_fetch _
  | call_iter_transcripts => true
  | call_get_transcript _ | call_list_transcripts _ => false
  end.

(** The method of an event is neither of the two the handler serves: the key
    is absent, or its value is not one of the two strings. *)
Definition other_method (event : dict) : Prop :=
  forall s,
    dict_get event (py "httpMethod") = Some (PStr s) ->
    s <> py "OPTIONS" /\ s <> py "POST".

Module MoreSamples.

Definition disabled : exn := Exception (py "TranscriptsDisabled").

(** A provider whose listing raises. *)
Definition listing_fails : pystr -> exn + TranscriptList pystr :=
  fun _ => inl disabled.

Definition fetch_error : exn := Exception (py "RequestBlocked").

(** Only a German track, whose fetch raises. *)
Definition broken_only : pystr -> exn + TranscriptList pystr :=
  fun _ =>
    inr (Samples.listing [] []
           [ {| language_code := py "de"; fetch := inl fetch_error |} ]).

(** A parser given by a table of the texts it accepts. *)
Fixpoint loads_table (table : list (pystr * pyval)) (s : pystr)
    : exn + pyval :=
  match table with
  | [] => inl Samples.decode_error
  | (text, v) :: table' =>
      if PyStr.eqb text s then inr v else loads_table table' s
  end.

Definition externals (table : list (pystr * pyval))
    (provider : pystr -> exn + TranscriptList pystr) : Externals :=
  {| Segment := pystr;
     list_transcripts := provider;
     format_transcript := Samples.join_lines;
     re_type_error := fun _ =>
       Exception (py "expected string or bytes-like object");
     json_loads := loads_table table;
     json_type_error := fun _ =>
       Exception (py "the JSON object must be str, bytes or bytearray");
     attribute_error := fun _ =>
       Exception (py "object has no attribute 'get'");
     json_dumps := fun _ => py "<json>" |}.

(** Stand-ins for the bodies [{"youtubeUrl": 5}], [{"youtubeUrl": null}] and
    the body of [Samples.url_body]. *)
Definition bodies : list (pystr * pyval) :=
  [ (py "number", PDict [ (py "youtubeUrl", PInt 5) ]);
    (py "null", PDict [ (py "youtubeUrl", PNone) ]);
    (py "url", PDict [ (py "youtubeUrl", Samples.good_url) ]);
    (py "array", PList []) ].

End MoreSamples.

(* ------------------------------------------------------------------ *)
(** ** Tests on concrete inputs *)

Example extract_watch_url :
  extract_video_id_str (py "https://www.youtube.com/watch?v=dQw4w9WgXcQ&t=3")
  = Some (py "dQw4w9WgXcQ").
Proof. vm_compute. reflexivity. Qed.

Example extract_bare_id :
  extract_video_id_str (py "dQw4w9WgXcQ") = Some (py "dQw4w9WgXcQ").
Proof. vm_compute. reflexivity. Qed.

Example extract_trailing_space :
  extract_video_id_str (py "dQw4w9WgXcQ ") = None.
Proof. vm_compute. reflexivity. Qed.

Example extract_leftmost :
  extract_video_id_str (py "youtu.be/short youtu.be/AAAAAAAAAAA youtu.be/BBBBBBBBBBB")
  = Some (py "AAAAAAAAAAA").
Proof. vm_compute. reflexivity. Qed.

Example split_hello :
  split (py "  hello world" ++ [LF] ++ py "foo ")
  = [py "hello"; py "world"; py "foo"].
Proof. vm_compute. reflexivity. Qed.

Example get_transcript_manual_en_GB :
  let E := Samples.externals Samples.manual_en_GB in
  outcome (get_transcript Samples.good_url)
  = inr (success_result Samples.video_id (py "good" ++ [LF] ++ py "day")
           (py "en-GB")).
Proof. vm_compute. reflexivity. Qed.

Example handler_options :
  handler (E := Samples.externals Samples.manual_en_GB)
    [ (py "httpMethod", PStr (py "OPTIONS")) ] PNone
  = (inr (PDict [ (py "statusCode", PInt 200);
                  (py "headers", PDict cors_headers);
                  (py "body", PStr (py "<json>")) ]),
     []).
Proof. vm_compute. reflexivity. Qed.

Example handler_get_is_405 :
  match
    outcome (handler (E := Samples.externals Samples.manual_en_GB)
               [ (py "httpMethod", PStr (py "GET")) ] PNone)
  with
  | inr resp => field resp (py "statusCode")
  | inl _ => None
  end = Some (PInt 405).
Proof. vm_compute. reflexivity. Qed.

Example handler_success_is_200 :
  let run :=
    handler (E := Samples.externals Samples.manual_en_GB)
      (Samples.post Samples.url_body) PNone in
  match outcome run with
  | inr resp => field resp (py "statusCode")
  | inl _ => None
  end = Some (PInt 200)
  /\ calls run
     = [ call_get_transcript Samples.good_url;
         call_list_transcripts Samples.video_id;
         call_find_manually_created_transcript [py "en"];
         call_find_manually_created_transcript [py "en-US"];
         call_find_manually_created_transcript [py "en-GB"];
         call_fetch (py "en-GB") ].
Proof. split; vm_compute; reflexivity. Qed.

Example handler_no_tracks_is_400 :
  let run :=
    handler (E := Samples.externals Samples.no_tracks)
      (Samples.post Samples.url_body) PNone in
  match outcome run with
  | inr resp => field resp (py "statusCode")
  | inl _ => None
  end = Some (PInt 400)
  /\ calls run
     = [ call_get_transcript Samples.good_url;
         call_list_transcripts Samples.video_id;
         call_find_manually_created_transcript [py "en"];
         call_find_manually_created_transcript [py "en-US"];
         call_find_manually_created_transcript [py "en-GB"];
         call_find_generated_transcript [py "en"];
         call_iter_transcripts ].
Proof. split; vm_compute; reflexivity. Qed.

Example handler_array_body_is_500 :
  match
    outcome (handler (E := Samples.externals Samples.no_tracks)
               (Samples.post (py "[]")) PNone)
  with
  | inr resp => field resp (py "statusCode")
  | inl _ => None
  end = Some (PInt 500).
Proof. vm_compute. reflexivity. Qed.

Example handler_null_body_is_500 :
  match
    outcome (handler (E := Samples.externals Samples.no_tracks)
               [ (py "httpMethod", PStr (py "POST")); (py "body", PNone) ]
               PNone)
  with
  | inr resp => field resp (py "statusCode")
  | inl _ => None
  end = Some (PInt 500).
Proof. vm_compute. reflexivity. Qed.

Example get_transcript_not_a_string :
  get_transcript (E := Samples.externals Samples.no_tracks) (PInt 5)
  = (inr (PDict [ (py "success", PBool false);
                  (py "error",
                   PStr (py "expected string or bytes-like object"));
                  (py "videoId", PNone) ]),
     []).
Proof. vm_compute. reflexivity. Qed.

Example get_transcript_german_only :
  let E := Samples.externals Samples.german_only in
  match outcome (get_transcript Samples.good_url) with
  | inr r => field r (py "language")
  | inl _ => None
  end = Some (PStr (py "de")).
Proof. vm_compute. reflexivity. Qed.

(* ------------------------------------------------------------------ *)
(** ** Strings and patterns *)

Lemma pystr_eqb_eq (s t : pystr) : PyStr.eqb s t = true <-> s = t.
Proof.
  revert t; induction s as [|c s IH]; intros [|d t]; simpl;
    try (split; [discriminate | discriminate]); try tauto.
  rewrite andb_true_iff, N.eqb_eq, IH.
  split; [intros [-> ->]; reflexivity | intros [= -> ->]; auto].
Qed.

Lemma pystr_eqb_refl (s : pystr) : PyStr.eqb s s = true.
Proof. apply pystr_eqb_eq; reflexivity. Qed.

Lemma strip_prefix_Some (p s r : pystr) :
  strip_prefix p s = Some r <-> s = p ++ r.
Proof.
  revert s; induction p as [|c p IH]; intros s; simpl.
  - split; [intros [= ->] | intros ->]; reflexivity.
  - destruct s as [|d s]; [split; discriminate|].
    destruct (N.eqb_spec c d) as [->|Hne].
    + rewrite IH; split; [intros -> | intros [= ->]]; reflexivity.
    + split; [discriminate | intros [= -> _]; contradiction].
Qed.

Lemma strip_prefix_app (p r : pystr) : strip_prefix p (p ++ r) = Some r.
Proof. apply strip_prefix_Some; reflexivity. Qed.

Lemma class_run_Some (p : N -> bool) (n : nat) (s r : pystr) :
  class_run p n s = Some r <->
  exists tok, s = tok ++ r /\ List.length tok = n /\ forallb p tok = true.
Proof.
  revert s; induction n as [|n IH]; intros s; simpl.
  - split.
    + intros [= ->]; exists []; auto.
    + intros ([|c tok] & -> & Hlen & _); [reflexivity | discriminate].
  - destruct s as [|c s].
    + split; [discriminate|].
      intros ([|c tok] & Heq & Hlen & _); discriminate.
    + destruct (p c) eqn:Hc.
      * rewrite IH; split.
        -- intros (tok & -> & Hlen & Hall); exists (c :: tok); simpl.
           rewrite Hc, Hlen; auto.
        -- intros ([|d tok] & Heq & Hlen & Hall); [discriminate|].
           simpl in *; injection Heq as <- ->; injection Hlen as Hlen.
           apply andb_true_iff in Hall as [_ Hall]; exists tok; auto.
      * split; [discriminate|].
        intros ([|d tok] & Heq & Hlen & Hall); [discriminate|].
        simpl in *; injection Heq as <- ->.
        rewrite Hc in Hall; discriminate.
Qed.

Lemma class_run_app (p : N -> bool) (tok r : pystr) :
  forallb p tok = true -> class_run p (List.length tok) (tok ++ r) = Some r.
Proof. intros H; apply class_run_Some; exists tok; auto. Qed.

Lemma class_run_firstn (p : N -> bool) (n : nat) (s r : pystr) :
  class_run p n s = Some r ->
  s = firstn n s ++ r /\ List.length (firstn n s) = n
  /\ forallb p (firstn n s) = true.
Proof.
  intros H; apply class_run_Some in H as (tok & -> & Hlen & Hall).
  rewrite <- Hlen, firstn_app, Nat.sub_diag, firstn_all; simpl.
  rewrite app_nil_r; auto.
Qed.

(** [p{n}] consumes exactly [n] characters of the class, or fails. *)
Lemma rmatch_repeat_class {R} (p : N -> bool) (n : nat) (k : Re.cont R)
    (pos : nat) (rest : pystr) (caps : Re.captures) :
  Re.rmatch (Re.Repeat n (Re.CharClass p)) k pos rest caps
  = match class_run p n rest with
    | Some rest' => k (n + pos) rest' caps
    | None => None
    end.
Proof.
  change (Re.rmatch (Re.Repeat n (Re.CharClass p)) k)
    with (Nat.iter n (Re.rmatch (Re.CharClass p)) k).
  revert pos rest; induction n as [|n IH]; intros pos rest; [reflexivity|].
  simpl Nat.iter; simpl class_run; simpl Re.rmatch.
  destruct rest as [|c rest]; [reflexivity|].
  destruct (p c); [|reflexivity].
  rewrite IH, Nat.add_succ_r; reflexivity.
Qed.

Lemma rmatch_group_repeat {R} (i : nat) (p : N -> bool) (n : nat)
    (k : Re.cont R) (pos : nat) (rest : pystr) (caps : Re.captures) :
  Re.rmatch (Re.Group i (Re.Repeat n (Re.CharClass p))) k pos rest caps
  = match class_run p n rest with
    | Some rest' => k (n + pos) rest' ((i, firstn n rest) :: caps)
    | None => None
    end.
Proof.
  change (Re.rmatch (Re.Group i (Re.Repeat n (Re.CharClass p))) k pos rest caps)
    with (Re.rmatch (Re.Repeat n (Re.CharClass p))
            (fun pos' rest' caps' =>
               k pos' rest' ((i, firstn (pos' - pos) rest) :: caps'))
            pos rest caps).
  rewrite rmatch_repeat_class.
  destruct (class_run p n rest); [|reflexivity].
  replace (n + pos - pos) with n by lia; reflexivity.
Qed.

Section UrlPattern.

Variables (r0 : Re.regex) (pos0 : nat) (rest0 : pystr).

Local Abbreviation k0 := (Re.finish r0 pos0 rest0) (only parsing).

Lemma rmatch_shape (shape : pystr) (pos : nat) (rest : pystr) :
  Re.rmatch (Re.Lit shape) (Re.rmatch token_group k0) pos rest []
  = match shape_token shape rest with
    | Some tok =>
        Some (Re.mkMatch r0
                (firstn (11 + (pos + List.length shape) - pos0) rest0)
                [(1, tok)])
    | None => None
    end.
Proof.
  unfold shape_token.
  change (Re.rmatch (Re.Lit shape) (Re.rmatch token_group k0) pos rest [])
    with (match strip_prefix shape rest with
          | Some rest' =>
              Re.rmatch token_group k0 (pos + List.length shape) rest' []
          | None => None
          end).
  destruct (strip_prefix shape rest) as [r|]; [|reflexivity].
  unfold token_group; rewrite rmatch_group_repeat.
  destruct (class_run is_id_char 11 r); reflexivity.
Qed.

Lemma rmatch_three_shapes (s1 s2 s3 : pystr) (pos : nat) (rest : pystr) :
  match any_shape_token [s1; s2; s3] rest with
  | Some tok =>
      exists g0,
        Re.rmatch
          (Re.Seq (Re.Alt (Re.Lit s1) (Re.Alt (Re.Lit s2) (Re.Lit s3)))
             token_group) k0 pos rest []
        = Some (Re.mkMatch r0 g0 [(1, tok)])
  | None =>
      Re.rmatch
        (Re.Seq (Re.Alt (Re.Lit s1) (Re.Alt (Re.Lit s2) (Re.Lit s3)))
           token_group) k0 pos rest []
      = None
  end.
Proof.
  change (Re.rmatch
            (Re.Seq (Re.Alt (Re.Lit s1) (Re.Alt (Re.Lit s2) (Re.Lit s3)))
               token_group) k0 pos rest [])
    with (match Re.rmatch (Re.Lit s1) (Re.rmatch token_group k0) pos rest []
          with
          | Some x => Some x
          | None =>
              match
                Re.rmatch (Re.Lit s2) (Re.rmatch token_group k0) pos rest []
              with
              | Some x => Some x
              | None =>
                  Re.rmatch (Re.Lit s3) (Re.rmatch token_group k0)
                    pos rest []
              end
          end).
  rewrite !rmatch_shape; simpl any_shape_token.
  destruct (shape_token s1 rest); [eexists; reflexivity|].
  destruct (shape_token s2 rest); [eexists; reflexivity|].
  destruct (shape_token s3 rest); [eexists; reflexivity|reflexivity].
Qed.

End UrlPattern.

(** [pattern_url] at one position: it matches exactly when a shape followed by
    eleven allowed characters stands there, and group 1 is the token. *)
Lemma match_at_pattern_url (pos : nat) (rest : pystr) :
  match any_shape_token url_shapes rest with
  | Some tok =>
      exists g0,
        Re.match_at pattern_url pos rest
        = Some (Re.mkMatch pattern_url g0 [(1, tok)])
  | None => Re.match_at pattern_url pos rest = None
  end.
Proof.
  exact (rmatch_three_shapes pattern_url pos rest
           (py "youtube.com/watch?v=") (py "youtu.be/")
           (py "youtube.com/embed/") pos rest).
Qed.

Lemma search_from_pattern_url (pos : nat) (rest : pystr) :
  match first_shape_token url_shapes rest with
  | Some tok =>
      exists g0,
        Re.search_from pattern_url pos rest
        = Some (Re.mkMatch pattern_url g0 [(1, tok)])
  | None => Re.search_from pattern_url pos rest = None
  end.
Proof.
  revert pos; induction rest as [|c rest IH]; intros pos.
  - pose proof (match_at_pattern_url pos []) as H.
    unfold first_shape_token, Re.search_from.
    destruct (any_shape_token url_shapes []) as [tok|].
    + destruct H as [g0 ->]; eauto.
    + rewrite H; reflexivity.
  - pose proof (match_at_pattern_url pos (c :: rest)) as H.
    change (first_shape_token url_shapes (c :: rest))
      with (match any_shape_token url_shapes (c :: rest) with
            | Some t => Some t
            | None => first_shape_token url_shapes rest
            end).
    change (Re.search_from pattern_url pos (c :: rest))
      with (match Re.match_at pattern_url pos (c :: rest) with
            | Some m => Some m
            | None => Re.search_from pattern_url (S pos) rest
            end).
    destruct (any_shape_token url_shapes (c :: rest)) as [tok|].
    + destruct H as [g0 ->]; eauto.
    + rewrite H; apply IH.
Qed.

(** [pattern_id] matches at position 0 only. *)
Lemma match_at_pattern_id (pos : nat) (rest : pystr) :
  Re.match_at pattern_id pos rest
  = if Nat.eqb pos 0 && bare_id_match rest
    then Some (Re.mkMatch pattern_id (firstn 11 rest) [])
    else None.
Proof.
  unfold Re.match_at, pattern_id.
  change (Re.rmatch (Re.Seq Re.Bol ?r) ?k pos rest [])
    with (if Nat.eqb pos 0 then Re.rmatch r k pos rest [] else None).
  destruct (Nat.eqb_spec pos 0) as [->|]; [|reflexivity].
  change (Re.rmatch (Re.Seq ?a Re.Eol) ?k 0 rest [])
    with (Re.rmatch a (Re.rmatch Re.Eol k) 0 rest []).
  rewrite rmatch_repeat_class; unfold bare_id_match.
  change (Nat.eqb 0 0 && ?b) with b.
  destruct (class_run is_id_char 11 rest) as [[|c [|d r]]|]; reflexivity.
Qed.

Lemma search_from_pattern_id_later (pos : nat) (rest : pystr) :
  Re.search_from pattern_id (S pos) rest = None.
Proof.
  revert pos; induction rest as [|c rest IH]; intros pos;
    unfold Re.search_from; fold Re.search_from;
    rewrite match_at_pattern_id; simpl; auto.
Qed.

Lemma search_pattern_id (s : pystr) :
  Re.search pattern_id s
  = if bare_id_match s
    then Some (Re.mkMatch pattern_id (firstn 11 s) [])
    else None.
Proof.
  unfold Re.search.
  destruct s as [|c s]; unfold Re.search_from; fold Re.search_from;
    rewrite match_at_pattern_id; simpl andb.
  - reflexivity.
  - destruct (bare_id_match (c :: s)); [reflexivity|].
    apply search_from_pattern_id_later.
Qed.

(** The resolver, read directly: the token after the leftmost shape, else the
    first eleven characters of a string that is a bare id. *)
Lemma extract_video_id_str_eq (s : pystr) :
  extract_video_id_str s
  = match first_shape_token url_shapes s with
    | Some tok => Some tok
    | None => if bare_id_match s then Some (firstn 11 s) else None
    end.
Proof.
  unfold extract_video_id_str, patterns, first_match.
  pose proof (search_from_pattern_url 0 s) as H; fold (Re.search pattern_url s) in H.
  destruct (first_shape_token url_shapes s) as [tok|].
  - destruct H as [g0 ->]; reflexivity.
  - rewrite H, search_pattern_id.
    destruct (bare_id_match s); reflexivity.
Qed.

(** ** Occurrences of a shape in a string *)

Lemma shape_token_Some (shape rest tok : pystr) :
  shape_token shape rest = Some tok <->
  exists r, rest = shape ++ tok ++ r /\ List.length tok = 11
            /\ forallb is_id_char tok = true.
Proof.
  unfold shape_token; split.
  - destruct (strip_prefix shape rest) as [t|] eqn:Hp; [|discriminate].
    apply strip_prefix_Some in Hp as ->.
    destruct (class_run is_id_char 11 t) as [r|] eqn:Hr; [|discriminate].
    intros Htok; assert (firstn 11 t = tok) as <- by congruence.
    exists r; apply class_run_firstn in Hr as (Ht & Hlen & Hall).
    rewrite <- Ht; auto.
  - intros (r & -> & Hlen & Hall).
    rewrite strip_prefix_app, <- Hlen, class_run_app by assumption.
    rewrite firstn_app, Nat.sub_diag, firstn_all; simpl.
    rewrite app_nil_r; reflexivity.
Qed.

Lemma any_shape_token_Some (shapes : list pystr) (rest tok : pystr) :
  any_shape_token shapes rest = Some tok ->
  exists shape r, In shape shapes /\ rest = shape ++ tok ++ r
                  /\ List.length tok = 11 /\ forallb is_id_char tok = true.
Proof.
  induction shapes as [|shape shapes IH]; simpl; [discriminate|].
  destruct (shape_token shape rest) as [t|] eqn:Ht.
  - intros [= ->]; apply shape_token_Some in Ht as (r & ? & ? & ?).
    exists shape, r; auto.
  - intros H; destruct (IH H) as (sh & r & ? & ?); exists sh, r; auto.
Qed.

Lemma any_shape_token_None (shapes : list pystr) (rest : pystr) :
  any_shape_token shapes rest = None ->
  forall shape tok r,
    In shape shapes -> rest = shape ++ tok ++ r -> List.length tok = 11 ->
    forallb is_id_char tok = true -> False.
Proof.
  induction shapes as [|sh shapes IH]; simpl; [intros _ ? ? ? []|].
  destruct (shape_token sh rest) as [t|] eqn:Ht; [discriminate|].
  intros Hnone shape tok r [->|Hin] Hrest Hlen Hall.
  - assert (shape_token shape rest = Some tok) as Hs
      by (apply shape_token_Some; eauto).
    congruence.
  - eapply IH; eauto.
Qed.

(** At one place at most one of the three shapes can stand, so the token
    there is determined. *)
Lemma any_url_shape_token_here (shape tok r : pystr) :
  In shape url_shapes -> List.length tok = 11 ->
  forallb is_id_char tok = true ->
  any_shape_token url_shapes (shape ++ tok ++ r) = Some tok.
Proof.
  intros Hin Hlen Hall.
  assert (shape_token shape (shape ++ tok ++ r) = Some tok) as Hs
    by (apply shape_token_Some; eauto).
  unfold url_shapes in *; simpl in Hin.
  destruct Hin as [<-|[<-|[<-|[]]]]; unfold any_shape_token.
  - rewrite Hs; reflexivity.
  - replace (shape_token (py "youtube.com/watch?v=")
               (py "youtu.be/" ++ tok ++ r)) with (@None pystr)
      by reflexivity.
    rewrite Hs; reflexivity.
  - replace (shape_token (py "youtube.com/watch?v=")
               (py "youtube.com/embed/" ++ tok ++ r)) with (@None pystr)
      by reflexivity.
    replace (shape_token (py "youtu.be/")
               (py "youtube.com/embed/" ++ tok ++ r)) with (@None pystr)
      by reflexivity.
    rewrite Hs; reflexivity.
Qed.

Lemma skipn_length_app {A} (pre s : list A) :
  skipn (List.length pre) (pre ++ s) = s.
Proof. induction pre; simpl; auto. Qed.

(** The scan finds the leftmost place with a token: no place before it has
    one, and when it finds nothing no place has one. *)
Lemma first_shape_token_spec (shapes : list pystr) (s : pystr) :
  match first_shape_token shapes s with
  | Some tok =>
      exists pre rest,
        s = pre ++ rest /\ any_shape_token shapes rest = Some tok
        /\ forall i, i < List.length pre ->
                     any_shape_token shapes (skipn i s) = None
  | None =>
      forall i, i <= List.length s -> any_shape_token shapes (skipn i s) = None
  end.
Proof.
  induction s as [|c s IH].
  - simpl; destruct (any_shape_token shapes []) as [tok|] eqn:H0.
    + exists [], []; simpl; repeat split; auto; intros i Hi; lia.
    + intros i Hi; assert (i = 0) as -> by (simpl in Hi; lia); exact H0.
  - change (first_shape_token shapes (c :: s))
      with (match any_shape_token shapes (c :: s) with
            | Some t => Some t
            | None => first_shape_token shapes s
            end).
    destruct (any_shape_token shapes (c :: s)) as [tok|] eqn:H0.
    + exists [], (c :: s); simpl; repeat split; auto; intros i Hi; lia.
    + destruct (first_shape_token shapes s) as [tok|].
      * destruct IH as (pre & rest & -> & Hrest & Hbefore).
        exists (c :: pre), rest; repeat split; auto.
        intros [|i] Hi; [exact H0|]; simpl in *; apply Hbefore; lia.
      * intros [|i] Hi; [exact H0|]; simpl in *; apply IH; lia.
Qed.

(** The id the resolver returns has eleven allowed characters. *)
Lemma extract_video_id_str_shape (s vid : pystr) :
  extract_video_id_str s = Some vid ->
  List.length vid = 11 /\ forallb is_id_char vid = true.
Proof.
  rewrite extract_video_id_str_eq.
  pose proof (first_shape_token_spec url_shapes s) as H.
  destruct (first_shape_token url_shapes s) as [tok|].
  - intros [= <-]; destruct H as (pre & rest & _ & Hrest & _).
    apply any_shape_token_Some in Hrest as (? & ? & ? & ? & ? & ?); auto.
  - unfold bare_id_match.
    destruct (class_run is_id_char 11 s) as [r|] eqn:Hr; [|discriminate].
    apply class_run_firstn in Hr as (_ & Hlen & Hall).
    destruct r as [|c [|d r]]; try discriminate.
    + intros Hv; assert (firstn 11 s = vid) as <- by congruence; auto.
    + destruct (N.eqb c LF); [|discriminate].
      intros Hv; assert (firstn 11 s = vid) as <- by congruence; auto.
Qed.

(* ------------------------------------------------------------------ *)
(** ** Outcome and log of composed computations *)

Section Effects.

Context {A B : Type}.

Lemma outcome_ret (a : A) : outcome (ret a) = inr a.
Proof. reflexivity. Qed.

Lemma outcome_raise (e : exn) : outcome (@raise A e) = inl e.
Proof. reflexivity. Qed.

Lemma outcome_perform (c : call) (r : exn + A) : outcome (perform c r) = r.
Proof. reflexivity. Qed.

Lemma outcome_lift (r : exn + A) : outcome (lift r) = r.
Proof. reflexivity. Qed.

Lemma outcome_bind (m : M A) (f : A -> M B) :
  outcome (bind m f)
  = match outcome m with
    | inl e => inl e
    | inr a => outcome (f a)
    end.
Proof.
  destruct m as [[e|a] l]; simpl; [reflexivity|].
  destruct (f a); reflexivity.
Qed.

Lemma outcome_try_except (m : M A) (h : exn -> M A) :
  outcome (try_except m h)
  = match outcome m with
    | inl e => outcome (h e)
    | inr a => inr a
    end.
Proof.
  destruct m as [[e|a] l]; simpl; [|reflexivity].
  destruct (h e); reflexivity.
Qed.

Lemma calls_bind (m : M A) (f : A -> M B) :
  calls (bind m f)
  = calls m ++ match outcome m with
               | inl _ => []
               | inr a => calls (f a)
               end.
Proof.
  destruct m as [[e|a] l]; simpl; [rewrite app_nil_r; reflexivity|].
  destruct (f a); reflexivity.
Qed.

Lemma calls_try_except (m : M A) (h : exn -> M A) :
  calls (try_except m h)
  = calls m ++ match outcome m with
               | inl e => calls (h e)
               | inr _ => []
               end.
Proof.
  destruct m as [[e|a] l]; simpl; [|rewrite app_nil_r; reflexivity].
  destruct (h e); reflexivity.
Qed.

End Effects.

Lemma M_eta {A} (m : M A) : m = (outcome m, calls m).
Proof. destruct m; reflexivity. Qed.

Lemma bind_lift_inr {A B} (a : A) (f : A -> M B) : bind (lift (inr a)) f = f a.
Proof. unfold bind, lift; destruct (f a); reflexivity. Qed.

Lemma bind_lift_inl {A B} (e : exn) (f : A -> M B) :
  bind (lift (inl e)) f = (inl e, []).
Proof. reflexivity. Qed.

Lemma try_except_raised {A} (e : exn) (h : exn -> M A) :
  try_except (inl e, []) h = h e.
Proof. unfold try_except; destruct (h e); reflexivity. Qed.

(* ------------------------------------------------------------------ *)
(** ** The fetcher *)

Section Fetcher.

Context {E : Externals}.

Lemma manual_loop_outcome (tl : TranscriptList Segment) (langs : list pystr) :
  outcome (manual_loop tl langs) = inr (first_fetched tl langs).
Proof.
  induction langs as [|lang langs IH]; [reflexivity|].
  cbn [manual_loop first_fetched]; unfold manual_attempt, do_fetch.
  rewrite outcome_try_except, outcome_bind, outcome_perform.
  destruct (find_manually_created_transcript tl [lang]) as [e|t]; [exact IH|].
  rewrite outcome_bind, outcome_perform.
  destruct (fetch t) as [e|segs]; [exact IH | reflexivity].
Qed.

Lemma select_transcript_outcome (tl : TranscriptList Segment) :
  outcome (select_transcript tl) = selection tl.
Proof.
  unfold select_transcript, selection.
  rewrite outcome_bind, manual_loop_outcome.
  destruct (first_fetched tl preferred_languages) as [[[|seg segs] lang]|];
    try reflexivity;
    rewrite outcome_try_except, outcome_bind, outcome_perform;
    unfold generated_attempt, first_available, do_fetch;
    (destruct (find_generated_transcript tl [py "en"]) as [e|t];
     [|rewrite outcome_bind, outcome_perform;
       destruct (fetch t) as [e|segs']; [|reflexivity]]);
    rewrite outcome_bind, outcome_perform;
    (destruct (iter_transcripts tl) as [|first rest]; [reflexivity|]);
    rewrite outcome_bind, outcome_perform;
    destruct (fetch first); reflexivity.
Qed.

(** [get_transcript] always returns, and what it returns is read off the
    attempts. *)
Lemma get_transcript_outcome (youtube_url : pyval) :
  outcome (get_transcript youtube_url) = inr (transcript_result youtube_url).
Proof.
  unfold get_transcript, transcript_result.
  destruct (extract_video_id youtube_url) as [e|[[|c vid]|]]; try reflexivity.
  rewrite outcome_try_except, outcome_bind, outcome_perform.
  destruct (list_transcripts (c :: vid)) as [e|tl]; [reflexivity|].
  rewrite outcome_bind, outcome_try_except, outcome_bind,
    select_transcript_outcome.
  destruct (selection tl) as [e|[segs lang]]; reflexivity.
Qed.

Lemma manual_loop_calls_no_iter (tl : TranscriptList Segment)
    (langs : list pystr) :
  ~ In call_iter_transcripts (calls (manual_loop tl langs)).
Proof.
  induction langs as [|lang langs IH]; [intros []|].
  cbn [manual_loop]; unfold do_fetch.
  rewrite calls_try_except, calls_bind, outcome_bind, outcome_perform.
  destruct (find_manually_created_transcript tl [lang]) as [e|t].
  - simpl; intros [H|H]; [discriminate | exact (IH H)].
  - rewrite calls_bind, outcome_bind, outcome_perform.
    destruct (fetch t) as [e|segs]; simpl.
    + intros [H|[H|H]]; [discriminate | discriminate | exact (IH H)].
    + intros [H|[H|[]]]; discriminate.
Qed.

(** The enumeration is asked for only after the attempt at the generated
    English transcript has failed. *)
Lemma select_transcript_iter_only_if (tl : TranscriptList Segment) :
  In call_iter_transcripts (calls (select_transcript tl)) ->
  exists e, generated_attempt tl = inl e.
Proof.
  unfold select_transcript.
  rewrite calls_bind, manual_loop_outcome, in_app_iff.
  intros [H|H]; [destruct (manual_loop_calls_no_iter _ _ H)|].
  unfold generated_attempt.
  destruct (first_fetched tl preferred_languages) as [[[|seg segs] lang]|];
    try (destruct H; fail);
    revert H; unfold do_fetch;
    rewrite calls_try_except, calls_bind, outcome_bind, outcome_perform;
    (destruct (find_generated_transcript tl [py "en"]) as [e|t];
     [intros _; eauto|]);
    rewrite calls_bind, outcome_bind, outcome_perform;
    (destruct (fetch t) as [e|segs']; [intros _; eauto|]);
    simpl; intros [H|[H|[]]]; discriminate.
Qed.

(** Without a resolved id nothing is called. *)
Lemma get_transcript_calls_unresolved (youtube_url : pyval) :
  (forall vid, extract_video_id youtube_url <> inr (Some vid)) ->
  calls (get_transcript youtube_url) = [].
Proof.
  intros H; unfold get_transcript.
  destruct (extract_video_id youtube_url) as [e|[[|c vid]|]]; try reflexivity.
  destruct (H (c :: vid)); reflexivity.
Qed.

(** With a resolved id the provider is asked for the list first. *)
Lemma get_transcript_calls_resolved (s vid : pystr) :
  extract_video_id_str s = Some vid ->
  exists rest,
    calls (get_transcript (PStr s)) = call_list_transcripts vid :: rest.
Proof.
  intros H; unfold get_transcript, extract_video_id; rewrite H.
  destruct (extract_video_id_str_shape _ H) as [Hlen _].
  destruct vid as [|c vid]; [discriminate|].
  rewrite calls_try_except, calls_bind; simpl; eauto.
Qed.

Lemma get_transcript_calls_select (youtube_url : pyval) (c : N)
    (vid : pystr) (tl : TranscriptList Segment) :
  extract_video_id youtube_url = inr (Some (c :: vid)) ->
  list_transcripts (c :: vid) = inr tl ->
  calls (get_transcript youtube_url)
  = call_list_transcripts (c :: vid) :: calls (select_transcript tl).
Proof.
  intros Hid Hlist; unfold get_transcript; rewrite Hid.
  rewrite calls_try_except, calls_bind, outcome_bind, !outcome_perform, Hlist.
  rewrite calls_bind, calls_try_except, calls_bind, outcome_try_except,
    outcome_bind, outcome_bind, outcome_try_except, outcome_bind.
  destruct (outcome (select_transcript tl)) as [e|[segs lang]]; simpl;
    rewrite ?app_nil_r; reflexivity.
Qed.

End Fetcher.

(* ------------------------------------------------------------------ *)
(** ** Word count *)

Lemma split_go_length (s : pystr) (cur : option pystr) :
  List.length (split_go cur s)
  = match cur with
    | Some _ => 1 + count_token_starts false s
    | None => count_token_starts true s
    end.
Proof.
  revert cur; induction s as [|c s IH]; intros cur; simpl.
  - destruct cur; reflexivity.
  - destruct (isspace c); simpl.
    + destruct cur; simpl; rewrite IH; reflexivity.
    + rewrite IH; destruct cur; reflexivity.
Qed.

(** [len(s.split())] is the number of whitespace-delimited tokens of [s]. *)
Lemma split_length (s : pystr) :
  List.length (split s) = whitespace_tokens s.
Proof. exact (split_go_length s None). Qed.

(* ------------------------------------------------------------------ *)
(** ** Results of the fetcher *)

Section Results.

Context {E : Externals}.

Lemma resolved_id_nonempty (youtube_url : pyval) (vid : pystr) :
  extract_video_id youtube_url = inr (Some vid) ->
  exists c vid', vid = c :: vid'.
Proof.
  unfold extract_video_id; destruct youtube_url; try discriminate.
  intros [= H]; apply extract_video_id_str_shape in H as [Hlen _].
  destruct vid as [|c vid']; [discriminate | eauto].
Qed.

Lemma transcript_result_resolved (youtube_url : pyval) (vid : pystr)
    (tl : TranscriptList Segment) :
  extract_video_id youtube_url = inr (Some vid) ->
  list_transcripts vid = inr tl ->
  transcript_result youtube_url
  = match selection tl with
    | inl e => fetch_failure e vid
    | inr (segments, lang) =>
        success_result vid (format_transcript segments) lang
    end.
Proof.
  intros Hid Hlist; destruct (resolved_id_nonempty _ Hid) as (c & vid' & ->).
  unfold transcript_result; rewrite Hid, Hlist; reflexivity.
Qed.

Lemma first_fetched_nothing (tl : TranscriptList Segment) (langs : list pystr) :
  (forall lang, In lang langs -> nothing_obtained (manual_attempt tl lang)) ->
  match first_fetched tl langs with
  | Some (_ :: _, _) => False
  | _ => True
  end.
Proof.
  induction langs as [|lang langs IH]; intros H; simpl; [exact I|].
  pose proof (H lang (or_introl eq_refl)) as Hl.
  destruct (manual_attempt tl lang) as [e|[|seg segs]]; simpl in Hl; auto.
  apply IH; intros l Hin; apply H; right; exact Hin.
Qed.

Lemma selection_without_manual (tl : TranscriptList Segment) :
  (forall lang, In lang preferred_languages ->
                nothing_obtained (manual_attempt tl lang)) ->
  selection tl
  = match generated_attempt tl with
    | inr segments => inr (segments, py "en (auto-generated)")
    | inl _ => first_available tl
    end.
Proof.
  intros H; apply first_fetched_nothing in H; unfold selection.
  destruct (first_fetched tl preferred_languages) as [[[|seg segs] lang]|];
    [reflexivity | contradiction | reflexivity].
Qed.

(** The four shapes a result can have. *)
Lemma transcript_result_cases (youtube_url : pyval) :
  transcript_result youtube_url = invalid_result
  \/ (exists e v, transcript_result youtube_url = outer_failure e v)
  \/ (exists e vid, transcript_result youtube_url = fetch_failure e vid)
  \/ (exists vid text lang,
        transcript_result youtube_url = success_result vid text lang).
Proof.
  unfold transcript_result.
  destruct (extract_video_id youtube_url) as [e|[[|c vid]|]]; eauto.
  destruct (list_transcripts (c :: vid)) as [e|tl]; eauto.
  destruct (selection tl) as [e|[segs lang]]; eauto 8.
Qed.

(** With manual transcripts that have content, the first preferred language
    that can be fetched tags the result. *)
Lemma manual_with_content (youtube_url : pyval) (vid : pystr)
    (tl : TranscriptList Segment) (seg : Segment) (segs : list Segment)
    (lang : pystr) :
  extract_video_id youtube_url = inr (Some vid) ->
  list_transcripts vid = inr tl ->
  first_fetched tl preferred_languages = Some (seg :: segs, lang) ->
  outcome (get_transcript youtube_url)
  = inr (success_result vid (format_transcript (seg :: segs)) lang).
Proof.
  intros Hid Hlist Hfirst.
  rewrite get_transcript_outcome, (transcript_result_resolved _ Hid Hlist).
  unfold selection; rewrite Hfirst; reflexivity.
Qed.

Lemma manual_en_GB_with_content (youtube_url : pyval) (vid : pystr)
    (tl : TranscriptList Segment) (seg : Segment) (segs : list Segment)
    (e1 e2 : exn) :
  extract_video_id youtube_url = inr (Some vid) ->
  list_transcripts vid = inr tl ->
  manual_attempt tl (py "en") = inl e1 ->
  manual_attempt tl (py "en-US") = inl e2 ->
  manual_attempt tl (py "en-GB") = inr (seg :: segs) ->
  outcome (get_transcript youtube_url)
  = inr (success_result vid (format_transcript (seg :: segs)) (py "en-GB")).
Proof.
  intros Hid Hlist H1 H2 H3; apply manual_with_content with (tl := tl); auto.
  unfold preferred_languages; cbn [first_fetched]; rewrite H1, H2, H3.
  reflexivity.
Qed.

End Results.

(* ------------------------------------------------------------------ *)
(** ** Properties of the transcript fetcher *)

(** C1, as amended.  When the id resolves, the listing succeeds, no manual
    attempt in en, en-US, en-GB leaves a transcript with content, the attempt
    at the generated English transcript raises and the enumeration is empty,
    [get_transcript] returns the failure result whose message is
    "Could not fetch transcript: No transcripts available" and whose videoId
    is the resolved id. *)
Theorem empty_enumeration_failure {E : Externals} (youtube_url : pyval)
    (vid : pystr) (tl : TranscriptList Segment) :
  extract_video_id youtube_url = inr (Some vid) ->
  list_transcripts vid = inr tl ->
  (forall lang, In lang preferred_languages ->
                nothing_obtained (manual_attempt tl lang)) ->
  (exists e, generated_attempt tl = inl e) ->
  iter_transcripts tl = [] ->
  outcome (get_transcript youtube_url)
  = inr (PDict
           [ (py "success", PBool false);
             (py "error",
              PStr (py "Could not fetch transcript: No transcripts available"));
             (py "videoId", PStr vid) ]).
Proof.
  intros Hid Hlist Hmanual [e Hgen] Hiter.
  rewrite get_transcript_outcome, (transcript_result_resolved _ Hid Hlist).
  rewrite (selection_without_manual _ Hmanual), Hgen.
  unfold first_available; rewrite Hiter; reflexivity.
Qed.

Lemma empty_enumeration_failure_witness :
  outcome
    (get_transcript (E := Samples.externals Samples.no_tracks)
       Samples.good_url)
  = inr (PDict
           [ (py "success", PBool false);
             (py "error",
              PStr (py "Could not fetch transcript: No transcripts available"));
             (py "videoId", PStr Samples.video_id) ]).
Proof.
  apply (empty_enumeration_failure (E := Samples.externals Samples.no_tracks)
           Samples.good_url (vid := Samples.video_id)
           (tl := Samples.listing [] [] [])).
  - vm_compute; reflexivity.
  - reflexivity.
  - intros lang _; exact I.
  - exists Samples.not_found; reflexivity.
  - reflexivity.
Defined.

(** C1, as stated, fails: with a provider that lists no track at all the
    message is not "No transcripts available". *)
Lemma empty_enumeration_message_is_prefixed :
  extract_video_id (E := Samples.externals Samples.no_tracks) Samples.good_url
  = inr (Some Samples.video_id)
  /\ @list_transcripts (Samples.externals Samples.no_tracks) Samples.video_id
     = inr (Samples.listing [] [] [])
  /\ (forall lang,
        manual_attempt (E := Samples.externals Samples.no_tracks)
          (Samples.listing [] [] []) lang
        = inl Samples.not_found)
  /\ generated_attempt (E := Samples.externals Samples.no_tracks)
       (Samples.listing [] [] [])
     = inl Samples.not_found
  /\ iter_transcripts (Samples.listing [] [] []) = []
  /\ exists r,
       outcome
         (get_transcript (E := Samples.externals Samples.no_tracks)
            Samples.good_url)
       = inr r
       /\ field r (py "success") = Some (PBool false)
       /\ field r (py "error")
          = Some (PStr (py "Could not fetch transcript: No transcripts available"))
       /\ field r (py "error") <> Some (PStr (py "No transcripts available")).
Proof.
  repeat split; try (vm_compute; reflexivity).
  eexists; split; [vm_compute; reflexivity|].
  repeat split; try (vm_compute; reflexivity).
  vm_compute; discriminate.
Qed.

(** C3, at the input where the code departs from it: the provider has a
    manual en-GB transcript and none in en or en-US, the fetch of the en-GB
    transcript returns no segment, and a generated English transcript exists.
    The loop stops at en-GB, but [not transcript] holds for the empty
    transcript and the result is tagged "en (auto-generated)". *)
Theorem empty_manual_en_GB_falls_through :
  let E := Samples.externals Samples.empty_manual_en_GB in
  let tl :=
    Samples.listing [Samples.track (py "en-GB") []]
      [Samples.track (py "en") [py "hello"]]
      [Samples.track (py "en-GB") []; Samples.track (py "en") [py "hello"]] in
  list_transcripts Samples.video_id = inr tl
  /\ manual_attempt tl (py "en") = inl Samples.not_found
  /\ manual_attempt tl (py "en-US") = inl Samples.not_found
  /\ manual_attempt tl (py "en-GB") = inr []
  /\ outcome (manual_loop tl preferred_languages) = inr (Some ([], py "en-GB"))
  /\ outcome (get_transcript Samples.good_url)
     = inr (success_result Samples.video_id (py "hello")
              (py "en (auto-generated)")).
Proof. intros E tl; repeat split; vm_compute; reflexivity. Qed.

(** C4.  When no manual attempt in en, en-US, en-GB leaves a transcript with
    content: if the generated English transcript can be fetched the result is
    the success record whose language is "en (auto-generated)"; if that
    attempt raises and the first track of the enumeration can be fetched the
    result is the success record whose language is that track's language
    code; and the enumeration is asked for only if the attempt at the
    generated transcript raised.  The records are written out field by
    field. *)
Theorem generated_then_first_available {E : Externals} (youtube_url : pyval)
    (vid : pystr) (tl : TranscriptList Segment) :
  extract_video_id youtube_url = inr (Some vid) ->
  list_transcripts vid = inr tl ->
  (forall lang, In lang [py "en"; py "en-US"; py "en-GB"] ->
                nothing_obtained (manual_attempt tl lang)) ->
  (forall segments,
      generated_attempt tl = inr segments ->
      outcome (get_transcript youtube_url)
      = inr (PDict
               [ (py "success", PBool true);
                 (py "transcript", PStr (format_transcript segments));
                 (py "videoTitle", PStr (py "YouTube Video " ++ vid));
                 (py "videoId", PStr vid);
                 (py "language", PStr (py "en (auto-generated)"));
                 (py "wordCount",
                  PInt (Z.of_nat
                          (List.length
                             (split (format_transcript segments))))) ]))
  /\ (forall e first rest segments,
        generated_attempt tl = inl e ->
        iter_transcripts tl = first :: rest ->
        fetch first = inr segments ->
        outcome (get_transcript youtube_url)
        = inr (PDict
                 [ (py "success", PBool true);
                   (py "transcript", PStr (format_transcript segments));
                   (py "videoTitle", PStr (py "YouTube Video " ++ vid));
                   (py "videoId", PStr vid);
                   (py "language", PStr (language_code first));
                   (py "wordCount",
                    PInt (Z.of_nat
                            (List.length
                               (split (format_transcript segments))))) ]))
  /\ (In call_iter_transcripts (calls (get_transcript youtube_url)) ->
      exists e, generated_attempt tl = inl e).
Proof.
  intros Hid Hlist Hmanual.
  pose proof (transcript_result_resolved _ Hid Hlist) as Hres.
  rewrite (selection_without_manual _ Hmanual) in Hres.
  repeat split.
  - intros segments Hgen; rewrite get_transcript_outcome, Hres, Hgen.
    reflexivity.
  - intros e first rest segments Hgen Hiter Hfetch.
    rewrite get_transcript_outcome, Hres, Hgen.
    unfold first_available; rewrite Hiter, Hfetch; reflexivity.
  - destruct (resolved_id_nonempty _ Hid) as (c & vid' & ->).
    rewrite (get_transcript_calls_select _ Hid Hlist).
    intros [H|H]; [discriminate|].
    apply select_transcript_iter_only_if; exact H.
Qed.

Lemma generated_then_first_available_witness :
  outcome
    (get_transcript (E := Samples.externals Samples.generated_only)
       Samples.good_url)
  = inr (PDict
           [ (py "success", PBool true);
             (py "transcript", PStr (py "hello world foo"));
             (py "videoTitle", PStr (py "YouTube Video dQw4w9WgXcQ"));
             (py "videoId", PStr (py "dQw4w9WgXcQ"));
             (py "language", PStr (py "en (auto-generated)"));
             (py "wordCount", PInt 3) ]).
Proof.
  apply (proj1 (generated_then_first_available
                  (E := Samples.externals Samples.generated_only)
                  Samples.good_url (vid := Samples.video_id)
                  (tl := Samples.listing []
                           [Samples.track (py "en") [py "hello world foo"]]
                           [Samples.track (py "en") [py "hello world foo"]])
                  ltac:(vm_compute; reflexivity) eq_refl
                  ltac:(intros lang _; exact I))
           [py "hello world foo"]).
  reflexivity.
Defined.

(** C6.  In every successful result the word count is the number of
    whitespace-delimited tokens of the transcript text of the same result;
    the text "hello world foo" gives 3. *)
Theorem word_count_counts_tokens {E : Externals} (youtube_url r : pyval) :
  outcome (get_transcript youtube_url) = inr r ->
  field r (py "success") = Some (PBool true) ->
  exists text,
    field r (py "transcript") = Some (PStr text)
    /\ field r (py "wordCount")
       = Some (PInt (Z.of_nat (whitespace_tokens text)))
    /\ (text = py "hello world foo" ->
        field r (py "wordCount") = Some (PInt 3)).
Proof.
  rewrite get_transcript_outcome; intros [= <-] Hsuccess.
  destruct (transcript_result_cases youtube_url)
    as [H|[(e & v & H)|[(e & vid & H)|(vid & text & lang & H)]]];
    rewrite H in *; try discriminate Hsuccess.
  exists text; rewrite <- split_length.
  repeat split; try reflexivity.
  intros ->; reflexivity.
Qed.

Lemma word_count_counts_tokens_witness :
  exists text,
    field (success_result
             Samples.video_id (py "hello world foo")
             (py "en (auto-generated)")) (py "transcript")
    = Some (PStr text)
    /\ field (success_result
                Samples.video_id (py "hello world foo")
                (py "en (auto-generated)")) (py "wordCount")
       = Some (PInt (Z.of_nat (whitespace_tokens text)))
    /\ (text = py "hello world foo" ->
        field (success_result
                 Samples.video_id (py "hello world foo")
                 (py "en (auto-generated)")) (py "wordCount")
        = Some (PInt 3)).
Proof.
  apply (word_count_counts_tokens
           (E := Samples.externals Samples.generated_only) Samples.good_url).
  - vm_compute; reflexivity.
  - reflexivity.
Defined.

(** C7.  Whatever the input and the provider do, [get_transcript] returns a
    result with a boolean success flag that has the error field exactly when
    success is false and the transcript, language, wordCount and videoTitle
    fields exactly when success is true. *)
Theorem get_transcript_result_invariant {E : Externals} (youtube_url : pyval) :
  exists r,
    outcome (get_transcript youtube_url) = inr r
    /\ TranscriptResult_invariant r.
Proof.
  exists (transcript_result youtube_url); split;
    [apply get_transcript_outcome|].
  destruct (transcript_result_cases youtube_url)
    as [H|[(e & [v|] & H)|[(e & vid & H)|(vid & text & lang & H)]]];
    rewrite H;
    [exists false | exists false | exists false | exists false | exists true];
    repeat split; reflexivity.
Qed.

(* ------------------------------------------------------------------ *)
(** ** Properties of the ID resolver *)

Lemma exactly_eleven_allowed_run (s : pystr) :
  exactly_eleven_allowed s = true <-> class_run is_id_char 11 s = Some [].
Proof.
  unfold exactly_eleven_allowed.
  rewrite andb_true_iff, Nat.eqb_eq, class_run_Some; split.
  - intros [Hlen Hall]; exists s; rewrite app_nil_r; auto.
  - intros (tok & -> & Hlen & Hall); rewrite app_nil_r; auto.
Qed.

(** What the second pattern accepts, in words: eleven allowed characters, or
    eleven allowed characters and one final newline. *)
Lemma bare_id_match_true (s : pystr) :
  bare_id_match s = true <->
  exactly_eleven_allowed s = true
  \/ exists t, s = t ++ [LF] /\ exactly_eleven_allowed t = true.
Proof.
  unfold bare_id_match; split.
  - destruct (class_run is_id_char 11 s) as [[|c [|d r]]|] eqn:Hr;
      try discriminate.
    + intros _; left; apply exactly_eleven_allowed_run; exact Hr.
    + intros Hc; apply N.eqb_eq in Hc as ->; right.
      apply class_run_Some in Hr as (tok & -> & Hlen & Hall).
      exists tok; split; [reflexivity|].
      unfold exactly_eleven_allowed; rewrite Hlen, Hall; reflexivity.
  - intros [H|(t & -> & H)].
    + apply exactly_eleven_allowed_run in H; rewrite H; reflexivity.
    + unfold exactly_eleven_allowed in H.
      apply andb_true_iff in H as [Hlen Hall]; apply Nat.eqb_eq in Hlen.
      rewrite <- Hlen, class_run_app by assumption; reflexivity.
Qed.

(** Each shape of the pattern ends with the shape the specification names. *)
Lemma url_shape_ends_with_spec_shape (shape : pystr) :
  In shape url_shapes ->
  exists p shape', shape = p ++ shape' /\ In shape' spec_shapes.
Proof.
  unfold url_shapes, spec_shapes; simpl.
  intros [<-|[<-|[<-|[]]]].
  - exists (py "youtube.com/"), (py "watch?v="); auto.
  - exists [], (py "youtu.be/"); auto.
  - exists (py "youtube.com/"), (py "embed/"); auto.
Qed.

Lemma no_spec_shape_no_url_shape (s : pystr) :
  first_shape_token spec_shapes s = None ->
  first_shape_token url_shapes s = None.
Proof.
  intros Hspec.
  pose proof (first_shape_token_spec spec_shapes s) as Hnone.
  rewrite Hspec in Hnone.
  pose proof (first_shape_token_spec url_shapes s) as Hurl.
  destruct (first_shape_token url_shapes s) as [tok|]; [exfalso|reflexivity].
  destruct Hurl as (pre & rest & -> & Hrest & _).
  apply any_shape_token_Some in Hrest as (shape & r & Hin & -> & Hlen & Hall).
  apply url_shape_ends_with_spec_shape in Hin as (p & shape' & -> & Hin').
  specialize (Hnone (List.length (pre ++ p))).
  replace (pre ++ (p ++ shape') ++ tok ++ r)
    with ((pre ++ p) ++ shape' ++ tok ++ r) in Hnone
    by (rewrite <- !app_assoc; reflexivity).
  rewrite skipn_length_app in Hnone.
  eapply any_shape_token_None; [apply Hnone| | | |]; eauto.
  rewrite !length_app; lia.
Qed.

(** An input that matches no rule of the specification and is not eleven
    allowed characters followed by a newline is rejected, and the provider is
    not contacted. *)
Lemma unmatched_input_rejected {E : Externals} (s : pystr) :
  matches_no_rule s = true ->
  (forall t, s = t ++ [LF] -> exactly_eleven_allowed t = false) ->
  extract_video_id (PStr s) = inr None
  /\ get_transcript (PStr s) = (inr invalid_result, []).
Proof.
  unfold matches_no_rule; intros Hrule Hnl.
  destruct (first_shape_token spec_shapes s) eqn:Hspec; [discriminate|].
  apply negb_true_iff in Hrule.
  assert (extract_video_id_str s = None) as Hnone.
  { rewrite extract_video_id_str_eq, (no_spec_shape_no_url_shape _ Hspec).
    destruct (bare_id_match s) eqn:Hb; [|reflexivity].
    apply bare_id_match_true in Hb as [Hb|(t & Ht & Hb)]; [congruence|].
    rewrite (Hnl t Ht) in Hb; discriminate. }
  unfold get_transcript, extract_video_id; rewrite Hnone; auto.
Qed.

(** C2, at the input where the code departs from it: eleven allowed
    characters followed by a newline.  The input matches no rule of the
    specification, yet the resolver returns the eleven characters and
    [get_transcript] goes on to ask the provider for the transcript list, so
    its result is not the "Invalid YouTube URL or video ID" failure. *)
Theorem trailing_newline_is_resolved :
  let s := py "dQw4w9WgXcQ" ++ [LF] in
  matches_no_rule s = true
  /\ extract_video_id_str s = Some (py "dQw4w9WgXcQ")
  /\ forall E : Externals,
       extract_video_id (PStr s) = inr (Some (py "dQw4w9WgXcQ"))
       /\ (exists rest,
             calls (get_transcript (PStr s))
             = call_list_transcripts (py "dQw4w9WgXcQ") :: rest)
       /\ outcome (get_transcript (PStr s)) <> inr invalid_result.
Proof.
  intros s.
  assert (extract_video_id_str s = Some (py "dQw4w9WgXcQ")) as Hid
    by (vm_compute; reflexivity).
  split; [vm_compute; reflexivity|].
  split; [exact Hid|].
  intros E; split; [unfold extract_video_id; rewrite Hid; reflexivity|].
  split; [apply get_transcript_calls_resolved; exact Hid|].
  rewrite get_transcript_outcome.
  assert (extract_video_id (PStr s) = inr (Some (py "dQw4w9WgXcQ"))) as Hid'
    by (unfold extract_video_id; rewrite Hid; reflexivity).
  unfold transcript_result; rewrite Hid'.
  change (py "dQw4w9WgXcQ") with (100%N :: py "Qw4w9WgXcQ").
  cbv iota beta.
  destruct (list_transcripts (100%N :: py "Qw4w9WgXcQ")) as [e|tl];
    [intros H; discriminate H|].
  destruct (selection tl) as [e|[segs lang]]; intros H; discriminate H.
Qed.

(** C5.  When the input contains one of the three URL shapes immediately
    followed by eleven allowed characters, the resolver returns the eleven
    characters that follow the leftmost such occurrence: an occurrence that
    starts no later than the given one, and the given token itself when the
    two start at the same place. *)
Theorem extract_video_id_known_shape {E : Externals}
    (pre shape tok rest : pystr) :
  In shape url_shapes ->
  List.length tok = 11 ->
  forallb is_id_char tok = true ->
  exists pre' shape' tok' rest',
    pre ++ shape ++ tok ++ rest = pre' ++ shape' ++ tok' ++ rest'
    /\ In shape' url_shapes
    /\ List.length tok' = 11
    /\ forallb is_id_char tok' = true
    /\ List.length pre' <= List.length pre
    /\ (List.length pre' = List.length pre -> tok' = tok)
    /\ extract_video_id (PStr (pre ++ shape ++ tok ++ rest))
       = inr (Some tok').
Proof.
  intros Hin Hlen Hall.
  set (s := pre ++ shape ++ tok ++ rest).
  assert (any_shape_token url_shapes (skipn (List.length pre) s) = Some tok)
    as Hhere.
  { unfold s; rewrite skipn_length_app.
    apply any_url_shape_token_here; assumption. }
  pose proof (first_shape_token_spec url_shapes s) as Hspec.
  pose proof (extract_video_id_str_eq s) as Heq.
  destruct (first_shape_token url_shapes s) as [tok'|].
  - destruct Hspec as (pre' & rest0 & Hs & Hrest0 & Hbefore).
    pose proof (any_shape_token_Some _ _ Hrest0)
      as (shape' & rest' & Hin' & -> & Hlen' & Hall').
    assert (List.length pre' <= List.length pre) as Hle.
    { destruct (Nat.le_gt_cases (List.length pre') (List.length pre)) as [|Hgt];
        [assumption|].
      rewrite (Hbefore _ Hgt) in Hhere; discriminate. }
    exists pre', shape', tok', rest'; repeat split; auto.
    + intros Hsame; rewrite <- Hsame, Hs, skipn_length_app in Hhere.
      congruence.
    + unfold extract_video_id; fold s; rewrite Heq; reflexivity.
  - rewrite Hspec in Hhere; [discriminate|].
    unfold s; rewrite length_app; lia.
Qed.

Lemma extract_video_id_known_shape_witness :
  exists pre' shape' tok' rest',
    py "https://" ++ py "youtu.be/" ++ py "dQw4w9WgXcQ" ++ py "?t=1"
    = pre' ++ shape' ++ tok' ++ rest'
    /\ In shape' url_shapes
    /\ List.length tok' = 11
    /\ forallb is_id_char tok' = true
    /\ List.length pre' <= List.length (py "https://")
    /\ (List.length pre' = List.length (py "https://")
        -> tok' = py "dQw4w9WgXcQ")
    /\ extract_video_id (E := Samples.externals Samples.no_tracks)
         (PStr (py "https://" ++ py "youtu.be/" ++ py "dQw4w9WgXcQ"
                  ++ py "?t=1"))
       = inr (Some tok').
Proof.
  apply (@extract_video_id_known_shape
           (Samples.externals Samples.no_tracks)
           (py "https://") (py "youtu.be/") (py "dQw4w9WgXcQ") (py "?t=1")).
  - right; left; reflexivity.
  - reflexivity.
  - reflexivity.
Defined.

(* ------------------------------------------------------------------ *)
(** ** Properties of the request handler *)

Section Handler.

Context {E : Externals}.

Lemma transcript_result_success_field (youtube_url : pyval) :
  exists b : bool,
    py_get (transcript_result youtube_url) (py "success") = inr (PBool b).
Proof.
  destruct (transcript_result_cases youtube_url)
    as [H|[(e & v & H)|[(e & vid & H)|(vid & text & lang & H)]]];
    rewrite H; eexists; reflexivity.
Qed.

Lemma cors_present_response (status_code : Z) (payload : pyval) :
  cors_present (response status_code cors_headers payload)
  /\ cors_present (response status_code json_headers payload).
Proof.
  split; [exists cors_headers | exists json_headers];
    repeat split; reflexivity.
Qed.

(** The method test of a POST event. *)
Lemma handler_post (event : dict) (context : pyval) :
  dict_get event (py "httpMethod") = Some (PStr (py "POST")) ->
  handler event context
  = try_except
      (body <- lift (loads (dict_get_default event (py "body")
                              (PStr (py "{}")))) ;;
       youtube_url <- lift (py_get body (py "youtubeUrl")) ;;
       if negb (truthy youtube_url) then
         ret (response 400 json_headers
                (error_payload (py "youtubeUrl is required")))
       else
         result <-
           (_ <- perform (call_get_transcript youtube_url) (inr tt) ;;
            get_transcript youtube_url) ;;
         success <- lift (py_get result (py "success")) ;;
         let status_code := if truthy success then 200%Z else 400%Z in
         ret (response status_code json_headers result))
      (fun _ =>
         ret (response 500 json_headers
                (error_payload (py "Internal server error")))).
Proof.
  intros Hm; unfold handler, dict_get_default at 1 2; rewrite Hm.
  reflexivity.
Qed.

(** What the handler answers once [get_transcript] has been called. *)
Lemma handler_after_get_transcript (youtube_url : pyval) :
  exists (status_code : Z),
    (status_code = 200%Z \/ status_code = 400%Z)
    /\ outcome
         (result <-
            (_ <- perform (call_get_transcript youtube_url) (inr tt) ;;
             get_transcript youtube_url) ;;
          success <- lift (py_get result (py "success")) ;;
          ret (response (if truthy success then 200%Z else 400%Z)
                 json_headers result))
       = inr (response status_code json_headers
                (transcript_result youtube_url)).
Proof.
  rewrite outcome_bind, outcome_bind, outcome_perform, get_transcript_outcome.
  rewrite outcome_bind, outcome_lift.
  destruct (transcript_result_success_field youtube_url) as [b ->].
  destruct b; simpl; eauto.
Qed.

(** A body that parses to something other than an object has no [get]: the
    outermost handler answers 500. *)
Lemma non_object_body_is_internal_error (event : dict) (context : pyval)
    (text : pystr) (v : pyval) :
  dict_get event (py "httpMethod") = Some (PStr (py "POST")) ->
  dict_get_default event (py "body") (PStr (py "{}")) = PStr text ->
  json_loads text = inr v ->
  (forall d, v <> PDict d) ->
  handler event context
  = (inr (response 500 json_headers
            (error_payload (py "Internal server error"))), []).
Proof.
  intros Hm Hbody Hloads Hv.
  rewrite (handler_post _ _ Hm), Hbody.
  unfold loads; rewrite Hloads, bind_lift_inr.
  destruct v; try (destruct (Hv _ eq_refl));
    unfold py_get; rewrite bind_lift_inl, try_except_raised; reflexivity.
Qed.

(** Any method other than OPTIONS and POST is answered 405, without a call. *)
Lemma other_method_is_405 (event : dict) (context : pyval) :
  py_eq_str (dict_get_default event (py "httpMethod") PNone) (py "OPTIONS")
  = false ->
  py_eq_str (dict_get_default event (py "httpMethod") PNone) (py "POST")
  = false ->
  handler event context
  = (inr (response 405 json_headers
            (error_payload (py "Method not allowed"))), []).
Proof. intros H1 H2; unfold handler; rewrite H1, H2; reflexivity. Qed.

End Handler.

(** C8, as amended.  For a POST event whose body parses to a JSON object in
    which youtubeUrl is absent or the empty string, the handler answers 400
    with the payload [{"error": "youtubeUrl is required"}], and makes no call:
    neither [get_transcript] nor the provider.  An event without body counts,
    through the default ["{}"]. *)
Theorem missing_url_is_bad_request {E : Externals} (event : dict)
    (context : pyval) (text : pystr) (fields : dict) :
  dict_get event (py "httpMethod") = Some (PStr (py "POST")) ->
  dict_get_default event (py "body") (PStr (py "{}")) = PStr text ->
  json_loads text = inr (PDict fields) ->
  dict_get fields (py "youtubeUrl") = None
  \/ dict_get fields (py "youtubeUrl") = Some (PStr []) ->
  handler event context
  = (inr (PDict
            [ (py "statusCode", PInt 400);
              (py "headers", PDict json_headers);
              (py "body",
               PStr (json_dumps
                       (PDict [ (py "error",
                                 PStr (py "youtubeUrl is required")) ]))) ]),
     []).
Proof.
  intros Hm Hbody Hloads Hurl.
  rewrite (handler_post _ _ Hm), Hbody.
  unfold loads; rewrite Hloads, bind_lift_inr.
  unfold py_get; rewrite bind_lift_inr.
  unfold dict_get_default; destruct Hurl as [-> | ->]; reflexivity.
Qed.

Lemma missing_url_is_bad_request_witness :
  handler (E := Samples.externals Samples.no_tracks)
    (Samples.post (py "{}")) PNone
  = (inr (PDict
            [ (py "statusCode", PInt 400);
              (py "headers", PDict json_headers);
              (py "body",
               PStr (@json_dumps (Samples.externals Samples.no_tracks)
                       (PDict [ (py "error",
                                 PStr (py "youtubeUrl is required")) ]))) ]),
     []).
Proof.
  apply (missing_url_is_bad_request
           (E := Samples.externals Samples.no_tracks)
           (Samples.post (py "{}")) PNone (text := py "{}") (fields := [])).
  - reflexivity.
  - reflexivity.
  - reflexivity.
  - left; reflexivity.
Defined.

(** C8, as stated, fails: a POST body that is valid JSON but not an object,
    here the array [[]], has no youtubeUrl field, and the handler answers
    500, not 400: [body.get] raises and the outermost handler catches it. *)
Lemma array_body_without_url_is_500 :
  dict_get (Samples.post (py "[]")) (py "httpMethod")
  = Some (PStr (py "POST"))
  /\ dict_get_default (Samples.post (py "[]")) (py "body") (PStr (py "{}"))
     = PStr (py "[]")
  /\ @json_loads (Samples.externals Samples.no_tracks) (py "[]")
     = inr (PList [])
  /\ handler (E := Samples.externals Samples.no_tracks)
       (Samples.post (py "[]")) PNone
     = (inr (PDict
               [ (py "statusCode", PInt 500);
                 (py "headers", PDict json_headers);
                 (py "body",
                  PStr (@json_dumps (Samples.externals Samples.no_tracks)
                          (PDict [ (py "error",
                                    PStr (py "Internal server error")) ]))) ]),
        [])
  /\ (forall resp,
        outcome
          (handler (E := Samples.externals Samples.no_tracks)
             (Samples.post (py "[]")) PNone)
        = inr resp ->
        field resp (py "statusCode") <> Some (PInt 400)).
Proof.
  repeat split; try (vm_compute; reflexivity).
  intros resp H; vm_compute in H.
  injection H as <-; vm_compute; discriminate.
Qed.

(** C9.  Whatever the event, the handler returns a response, and its headers
    contain the three fixed cross-origin headers; its status is one of 200,
    405, 400 and 500. *)
Theorem cors_headers_always_present {E : Externals} (event : dict)
    (context : pyval) :
  exists resp status_code,
    outcome (handler event context) = inr resp
    /\ cors_present resp
    /\ field resp (py "statusCode") = Some (PInt status_code)
    /\ In status_code [200%Z; 405%Z; 400%Z; 500%Z].
Proof.
  unfold handler.
  destruct (py_eq_str (dict_get_default event (py "httpMethod") PNone)
              (py "OPTIONS")).
  { eexists; exists 200%Z; repeat split;
      [apply cors_present_response | simpl; auto]. }
  destruct (negb (py_eq_str (dict_get_default event (py "httpMethod") PNone)
                    (py "POST"))).
  { eexists; exists 405%Z; repeat split;
      [apply cors_present_response | simpl; auto]. }
  rewrite outcome_try_except, outcome_bind, outcome_lift.
  destruct (loads (dict_get_default event (py "body") (PStr (py "{}"))))
    as [e|body].
  { eexists; exists 500%Z; repeat split;
      [apply cors_present_response | simpl; auto]. }
  rewrite outcome_bind, outcome_lift.
  destruct (py_get body (py "youtubeUrl")) as [e|youtube_url].
  { eexists; exists 500%Z; repeat split;
      [apply cors_present_response | simpl; auto]. }
  destruct (negb (truthy youtube_url)).
  { eexists; exists 400%Z; repeat split;
      [apply cors_present_response | simpl; auto]. }
  cbv zeta.
  destruct (handler_after_get_transcript youtube_url) as (status & Hst & ->).
  eexists; exists status; repeat split;
    [apply cors_present_response | destruct Hst as [-> | ->]; simpl; auto].
Qed.



(* ------------------------------------------------------------------ *)
(** ** Further properties of the ID resolver *)

(** A text whose characters all lie in a class that no shape lies in
    contains no shape. *)
Lemma first_shape_token_none_by_class (q : N -> bool) (s : pystr) :
  forallb q s = true ->
  (forall shape, In shape url_shapes -> forallb q shape = false) ->
  first_shape_token url_shapes s = None.
Proof.
  intros Hs Hshapes.
  pose proof (first_shape_token_spec url_shapes s) as H.
  destruct (first_shape_token url_shapes s) as [tok|]; [exfalso|reflexivity].
  destruct H as (pre & rest & -> & Hrest & _).
  apply any_shape_token_Some in Hrest as (shape & r & Hin & -> & _).
  rewrite !forallb_app in Hs.
  apply andb_true_iff in Hs as [_ Hs]; apply andb_true_iff in Hs as [Hs _].
  rewrite (Hshapes _ Hin) in Hs; discriminate.
Qed.

Lemma url_shapes_not_allowed (shape : pystr) :
  In shape url_shapes -> forallb is_id_char shape = false.
Proof. intros [<-|[<-|[<-|[]]]]; reflexivity. Qed.

(** X1.  An id the resolver returns always has exactly eleven characters, all
    of them letters, digits, [_] or [-]. *)
Theorem resolved_id_is_well_formed {E : Externals} (url : pyval)
    (vid : pystr) :
  extract_video_id url = inr (Some vid) ->
  List.length vid = 11 /\ forallb is_id_char vid = true.
Proof.
  unfold extract_video_id; destruct url; try discriminate.
  intros [= H]; exact (extract_video_id_str_shape _ H).
Qed.

Lemma resolved_id_is_well_formed_witness :
  List.length Samples.video_id = 11
  /\ forallb is_id_char Samples.video_id = true.
Proof.
  apply (resolved_id_is_well_formed
           (E := Samples.externals Samples.no_tracks) Samples.good_url).
  vm_compute; reflexivity.
Defined.

(** X2.  A string of exactly eleven allowed characters is its own id. *)
Theorem bare_id_is_returned {E : Externals} (s : pystr) :
  List.length s = 11 ->
  forallb is_id_char s = true ->
  extract_video_id (PStr s) = inr (Some s).
Proof.
  intros Hlen Hall; unfold extract_video_id.
  rewrite extract_video_id_str_eq.
  rewrite (first_shape_token_none_by_class is_id_char s Hall
             url_shapes_not_allowed).
  assert (bare_id_match s = true) as ->.
  { apply bare_id_match_true; left; unfold exactly_eleven_allowed.
    rewrite Hlen, Hall; reflexivity. }
  rewrite <- Hlen, firstn_all; reflexivity.
Qed.

Lemma bare_id_is_returned_witness :
  extract_video_id (E := Samples.externals Samples.no_tracks)
    (PStr (py "dQw4w9WgXcQ"))
  = inr (Some (py "dQw4w9WgXcQ")).
Proof.
  apply (bare_id_is_returned (E := Samples.externals Samples.no_tracks)
           (py "dQw4w9WgXcQ")); reflexivity.
Defined.

Lemma extract_video_id_str_none_iff (s : pystr) :
  extract_video_id_str s = None <->
  (forall pre shape tok rest,
      In shape url_shapes -> List.length tok = 11 ->
      forallb is_id_char tok = true ->
      s <> pre ++ shape ++ tok ++ rest)
  /\ (forall t,
        List.length t = 11 -> forallb is_id_char t = true ->
        s <> t /\ s <> t ++ [LF]).
Proof.
  rewrite extract_video_id_str_eq.
  pose proof (first_shape_token_spec url_shapes s) as Hspec.
  split.
  - intros H.
    destruct (first_shape_token url_shapes s) as [tok|]; [discriminate|].
    destruct (bare_id_match s) eqn:Hbare; [discriminate|]; split.
    + intros pre shape tok rest Hin Hlen Hall ->.
      specialize (Hspec (List.length pre)).
      rewrite skipn_length_app, any_url_shape_token_here in Hspec
        by assumption.
      rewrite length_app in Hspec.
      assert (List.length pre <= List.length pre
                + List.length (shape ++ tok ++ rest)) as Hle by lia.
      specialize (Hspec Hle); discriminate.
    + assert (forall t, List.length t = 11 -> forallb is_id_char t = true ->
                        exactly_eleven_allowed t = true) as Hex.
      { intros t Hlen Hall; unfold exactly_eleven_allowed.
        rewrite Hlen, Hall; reflexivity. }
      intros t Hlen Hall; split; intros ->.
      * assert (bare_id_match t = true) as Hb
          by (apply bare_id_match_true; left; auto).
        congruence.
      * assert (bare_id_match (t ++ [LF]) = true) as Hb
          by (apply bare_id_match_true; right; exists t; auto).
        congruence.
  - intros [Hshape Hbare].
    destruct (first_shape_token url_shapes s) as [tok|].
    + exfalso; destruct Hspec as (pre & rest & -> & Hrest & _).
      apply any_shape_token_Some in Hrest
        as (shape & r & Hin & -> & Hlen & Hall).
      exact (Hshape pre shape tok r Hin Hlen Hall eq_refl).
    + destruct (bare_id_match s) eqn:Hb; [exfalso|reflexivity].
      apply bare_id_match_true in Hb as [Hb|(t & -> & Hb)];
        unfold exactly_eleven_allowed in Hb;
        apply andb_true_iff in Hb as [Hlen Hall];
        apply Nat.eqb_eq in Hlen.
      * exact (proj1 (Hbare s Hlen Hall) eq_refl).
      * exact (proj2 (Hbare t Hlen Hall) eq_refl).
Qed.

(** X3.  The resolver returns [None] exactly for the strings that contain no
    URL shape followed by eleven allowed characters and are neither eleven
    allowed characters nor eleven allowed characters and a final newline. *)
Theorem extract_video_id_none_iff {E : Externals} (s : pystr) :
  extract_video_id (PStr s) = inr None <->
  (forall pre shape tok rest,
      In shape url_shapes -> List.length tok = 11 ->
      forallb is_id_char tok = true ->
      s <> pre ++ shape ++ tok ++ rest)
  /\ (forall t,
        List.length t = 11 -> forallb is_id_char t = true ->
        s <> t /\ s <> t ++ [LF]).
Proof.
  rewrite <- extract_video_id_str_none_iff; unfold extract_video_id.
  split; [intros [= ->]; reflexivity | intros ->; reflexivity].
Qed.

(** X20.  For a string that contains no URL shape followed by eleven allowed
    characters and is neither eleven allowed characters nor eleven allowed
    characters and a final newline, [get_transcript] returns the failure
    result "Invalid YouTube URL or video ID" with a null videoId, and calls
    nothing. *)
Theorem unresolved_input_is_invalid {E : Externals} (s : pystr) :
  (forall pre shape tok rest,
      In shape url_shapes -> List.length tok = 11 ->
      forallb is_id_char tok = true ->
      s <> pre ++ shape ++ tok ++ rest) ->
  (forall t,
      List.length t = 11 -> forallb is_id_char t = true ->
      s <> t /\ s <> t ++ [LF]) ->
  get_transcript (PStr s)
  = (inr (PDict [ (py "success", PBool false);
                  (py "error", PStr (py "Invalid YouTube URL or video ID"));
                  (py "videoId", PNone) ]),
     []).
Proof.
  intros Hshape Hbare.
  assert (extract_video_id_str s = None) as Hnone
    by (apply extract_video_id_str_none_iff; auto).
  unfold get_transcript, extract_video_id; rewrite Hnone; reflexivity.
Qed.

Lemma unresolved_input_is_invalid_witness :
  get_transcript (E := Samples.externals Samples.manual_en_GB) (PStr [])
  = (inr (PDict [ (py "success", PBool false);
                  (py "error", PStr (py "Invalid YouTube URL or video ID"));
                  (py "videoId", PNone) ]),
     []).
Proof.
  apply (unresolved_input_is_invalid
           (E := Samples.externals Samples.manual_en_GB) (s := [])).
  - intros pre shape tok rest _ Hlen _ H.
    apply (f_equal (@List.length N)) in H.
    rewrite !length_app, Hlen in H; simpl in H; lia.
  - intros t Hlen _; split; intros H;
      apply (f_equal (@List.length N)) in H;
      rewrite ?length_app, Hlen in H; simpl in H; lia.
Defined.


(* ------------------------------------------------------------------ *)
(** ** Further properties of the transcript fetcher *)

Section FetcherCalls.

Context {E : Externals}.

Lemma manual_loop_calls (tl : TranscriptList Segment) (langs : list pystr) :
  forallb selection_call (calls (manual_loop tl langs)) = true
  /\ List.length (calls (manual_loop tl langs)) <= 2 * List.length langs
  /\ forall c, In c (calls (manual_loop tl langs)) ->
               (exists l, c = call_find_manually_created_transcript l)
               \/ (exists code, c = call_fetch code).
Proof.
  induction langs as [|lang langs (IHall & IHlen & IHkind)];
    [repeat split; simpl; auto; intros c []|].
  cbn [manual_loop]; unfold do_fetch.
  rewrite calls_try_except, calls_bind, outcome_bind, outcome_perform.
  destruct (find_manually_created_transcript tl [lang]) as [e|t].
  - simpl; repeat split; [exact IHall | lia |].
    intros c [<-|H]; [left; eauto | auto].
  - rewrite calls_bind, outcome_bind, outcome_perform.
    destruct (fetch t) as [e|segs]; simpl.
    + repeat split; [exact IHall | lia |].
      intros c [<-|[<-|H]]; [left; eauto | right; eauto | auto].
    + repeat split; [lia|].
      intros c [<-|[<-|[]]]; [left; eauto | right; eauto].
Qed.

Lemma select_transcript_calls (tl : TranscriptList Segment) :
  forallb selection_call (calls (select_transcript tl)) = true
  /\ List.length (calls (select_transcript tl)) <= 10.
Proof.
  unfold select_transcript.
  rewrite calls_bind, manual_loop_outcome, forallb_app, length_app.
  destruct (manual_loop_calls tl preferred_languages) as (Hall & Hlen & _).
  rewrite Hall; simpl List.length in Hlen.
  destruct (first_fetched tl preferred_languages) as [[[|seg segs] lang]|];
    try (simpl; split; [reflexivity | lia]);
    unfold do_fetch;
    rewrite calls_try_except, calls_bind, outcome_bind, outcome_perform;
    (destruct (find_generated_transcript tl [py "en"]) as [e|t];
     [|rewrite calls_bind, outcome_bind, outcome_perform;
       destruct (fetch t) as [e|segs']]);
    try (simpl; split; [reflexivity | lia]);
    rewrite calls_bind, outcome_perform;
    (destruct (iter_transcripts tl) as [|first rest];
     [|rewrite calls_bind, outcome_perform; destruct (fetch first)]);
    simpl; (split; [reflexivity | lia]).
Qed.

Lemma first_fetched_after_failures (tl : TranscriptList Segment)
    (before after : list pystr) (lang : pystr) (segments : list Segment) :
  (forall l, In l before -> exists e, manual_attempt tl l = inl e) ->
  manual_attempt tl lang = inr segments ->
  first_fetched tl (before ++ lang :: after) = Some (segments, lang).
Proof.
  intros Hbefore Hlang; induction before as [|l before IH]; simpl.
  - rewrite Hlang; reflexivity.
  - destruct (Hbefore l (or_introl eq_refl)) as [e ->].
    apply IH; intros l' Hin; apply Hbefore; right; exact Hin.
Qed.

Lemma count_token_starts_zero (s : pystr) :
  count_token_starts true s = 0 <-> forallb isspace s = true.
Proof.
  induction s as [|c s IH]; simpl; [tauto|].
  destruct (isspace c); simpl; [exact IH|].
  split; [lia | discriminate].
Qed.

End FetcherCalls.

(** X4.  When the id resolves and the provider's listing raises,
    [get_transcript] returns the failure result that carries the provider's
    message and the resolved id, and has made that one call only. *)
Theorem listing_failure_is_reported {E : Externals} (youtube_url : pyval)
    (vid : pystr) (e : exn) :
  extract_video_id youtube_url = inr (Some vid) ->
  list_transcripts vid = inl e ->
  get_transcript youtube_url
  = (inr (PDict [ (py "success", PBool false);
                  (py "error", PStr (exn_str e));
                  (py "videoId", PStr vid) ]),
     [call_list_transcripts vid]).
Proof.
  intros Hid Hlist; destruct (resolved_id_nonempty _ Hid) as (c & vid' & ->).
  unfold get_transcript; rewrite Hid.
  unfold perform, bind, try_except; rewrite Hlist; reflexivity.
Qed.

Lemma listing_failure_is_reported_witness :
  get_transcript (E := Samples.externals MoreSamples.listing_fails)
    Samples.good_url
  = (inr (PDict [ (py "success", PBool false);
                  (py "error", PStr (py "TranscriptsDisabled"));
                  (py "videoId", PStr Samples.video_id) ]),
     [call_list_transcripts Samples.video_id]).
Proof.
  apply (listing_failure_is_reported
           (E := Samples.externals MoreSamples.listing_fails)
           Samples.good_url (vid := Samples.video_id)
           (e := MoreSamples.disabled)).
  - vm_compute; reflexivity.
  - reflexivity.
Defined.

(** X5.  A value that is not a string is answered with a failure result that
    carries the message of the error [re.search] raised and a null videoId;
    nothing is called. *)
Theorem non_string_input_fails_without_call {E : Externals} (v : pyval) :
  (forall s, v <> PStr s) ->
  get_transcript v
  = (inr (PDict [ (py "success", PBool false);
                  (py "error", PStr (exn_str (re_type_error v)));
                  (py "videoId", PNone) ]),
     []).
Proof.
  intros Hv; destruct v; try reflexivity.
  destruct (Hv _ eq_refl).
Qed.

Lemma non_string_input_fails_without_call_witness :
  get_transcript (E := Samples.externals Samples.manual_en_GB) (PInt 5)
  = (inr (PDict [ (py "success", PBool false);
                  (py "error",
                   PStr (py "expected string or bytes-like object"));
                  (py "videoId", PNone) ]),
     []).
Proof.
  apply (non_string_input_fails_without_call
           (E := Samples.externals Samples.manual_en_GB) (v := PInt 5)).
  intros s; discriminate.
Defined.

(** X6.  Once the listing has succeeded, every failure result carries the
    resolved id and a message that starts with
    "Could not fetch transcript: "; what follows is "No transcripts
    available" when the enumeration is empty, and otherwise the message of
    the error raised by fetching the first enumerated track. *)
Theorem failure_after_listing_is_prefixed {E : Externals}
    (youtube_url r : pyval) (vid : pystr) (tl : TranscriptList Segment) :
  extract_video_id youtube_url = inr (Some vid) ->
  list_transcripts vid = inr tl ->
  outcome (get_transcript youtube_url) = inr r ->
  field r (py "success") = Some (PBool false) ->
  exists e,
    r = PDict [ (py "success", PBool false);
                (py "error",
                 PStr (py "Could not fetch transcript: " ++ exn_str e));
                (py "videoId", PStr vid) ]
    /\ ((iter_transcripts tl = []
         /\ e = Exception (py "No transcripts available"))
        \/ exists first rest,
             iter_transcripts tl = first :: rest /\ fetch first = inl e).
Proof.
  intros Hid Hlist Hout Hsuccess.
  rewrite get_transcript_outcome, (transcript_result_resolved _ Hid Hlist)
    in Hout.
  assert (r = match selection tl with
              | inl e => fetch_failure e vid
              | inr (segments, lang) =>
                  success_result vid (format_transcript segments) lang
              end) as -> by congruence.
  clear Hout.
  assert (forall text lang,
            field (success_result vid text lang) (py "success")
            <> Some (PBool false)) as Hok by (intros; discriminate).
  unfold selection, first_available in *.
  destruct (first_fetched tl preferred_languages) as [[[|seg segs] lang]|];
    try (destruct (Hok _ _ Hsuccess); fail);
    (destruct (generated_attempt tl) as [e0|segs'];
     [|destruct (Hok _ _ Hsuccess)]);
    (destruct (iter_transcripts tl) as [|first rest] eqn:Hiter;
     [eexists; split; [reflexivity | left; auto]|]);
    (destruct (fetch first) as [e|segs'] eqn:Hfetch;
     [|destruct (Hok _ _ Hsuccess)]);
    exists e; (split; [reflexivity | right; eauto]).
Qed.

Lemma failure_after_listing_is_prefixed_witness :
  exists e,
    fetch_failure MoreSamples.fetch_error Samples.video_id
    = PDict [ (py "success", PBool false);
              (py "error",
               PStr (py "Could not fetch transcript: " ++ exn_str e));
              (py "videoId", PStr Samples.video_id) ]
    /\ ((iter_transcripts
           (Samples.listing [] []
              [ {| language_code := py "de";
                   fetch := inl MoreSamples.fetch_error |} ]) = []
         /\ e = Exception (py "No transcripts available"))
        \/ exists first rest,
             iter_transcripts
               (Samples.listing [] []
                  [ {| language_code := py "de";
                       fetch := inl MoreSamples.fetch_error |} ])
             = first :: rest
             /\ fetch first = inl e).
Proof.
  apply (failure_after_listing_is_prefixed
           (E := Samples.externals MoreSamples.broken_only)
           Samples.good_url (vid := Samples.video_id)).
  - vm_compute; reflexivity.
  - reflexivity.
  - vm_compute; reflexivity.
  - reflexivity.
Defined.

(** X7.  The manual transcripts are tried in the order en, en-US, en-GB:
    when the attempts for the languages that stand before [lang] in that
    list raise and the manual transcript of [lang] is fetched with at least
    one segment, the result is the success record whose language is [lang]
    and whose text is that transcript, and neither the generated transcript
    nor the enumeration is asked for.  The record is written out field by
    field. *)
Theorem preferred_language_order {E : Externals} (youtube_url : pyval)
    (vid : pystr) (tl : TranscriptList Segment) (before after : list pystr)
    (lang : pystr) (seg : Segment) (segs : list Segment) :
  extract_video_id youtube_url = inr (Some vid) ->
  list_transcripts vid = inr tl ->
  [py "en"; py "en-US"; py "en-GB"] = before ++ lang :: after ->
  (forall l, In l before -> exists e, manual_attempt tl l = inl e) ->
  manual_attempt tl lang = inr (seg :: segs) ->
  outcome (get_transcript youtube_url)
  = inr (PDict
           [ (py "success", PBool true);
             (py "transcript", PStr (format_transcript (seg :: segs)));
             (py "videoTitle", PStr (py "YouTube Video " ++ vid));
             (py "videoId", PStr vid);
             (py "language", PStr lang);
             (py "wordCount",
              PInt (Z.of_nat
                      (List.length
                         (split (format_transcript (seg :: segs)))))) ])
  /\ forall c, In c (calls (get_transcript youtube_url)) ->
               c = call_list_transcripts vid
               \/ (exists l, c = call_find_manually_created_transcript l)
               \/ (exists code, c = call_fetch code).
Proof.
  intros Hid Hlist Hlangs Hbefore Hlang.
  pose proof (first_fetched_after_failures tl before after lang Hbefore Hlang)
    as Hfirst.
  rewrite <- Hlangs in Hfirst.
  change [py "en"; py "en-US"; py "en-GB"] with preferred_languages in Hfirst.
  split.
  - rewrite get_transcript_outcome, (transcript_result_resolved _ Hid Hlist).
    unfold selection; rewrite Hfirst; reflexivity.
  - destruct (resolved_id_nonempty _ Hid) as (c0 & vid' & ->).
    rewrite (get_transcript_calls_select _ Hid Hlist).
    unfold select_transcript.
    rewrite calls_bind, manual_loop_outcome, Hfirst.
    simpl calls at 2; rewrite app_nil_r.
    intros c [<-|Hin]; [left; reflexivity | right].
    exact (proj2 (proj2 (manual_loop_calls tl preferred_languages)) c Hin).
Qed.

Lemma preferred_language_order_witness :
  outcome
    (get_transcript (E := Samples.externals Samples.manual_en_GB)
       Samples.good_url)
  = inr (PDict
           [ (py "success", PBool true);
             (py "transcript", PStr (py "good" ++ LF :: py "day"));
             (py "videoTitle", PStr (py "YouTube Video dQw4w9WgXcQ"));
             (py "videoId", PStr (py "dQw4w9WgXcQ"));
             (py "language", PStr (py "en-GB"));
             (py "wordCount", PInt 2) ])
  /\ forall c,
       In c (calls
               (get_transcript (E := Samples.externals Samples.manual_en_GB)
                  Samples.good_url)) ->
       c = call_list_transcripts (py "dQw4w9WgXcQ")
       \/ (exists l, c = call_find_manually_created_transcript l)
       \/ (exists code, c = call_fetch code).
Proof.
  apply (@preferred_language_order
           (Samples.externals Samples.manual_en_GB) Samples.good_url
           Samples.video_id
           (Samples.listing
              [Samples.track (py "en-GB") [py "good"; py "day"]]
              [Samples.track (py "en") [py "hello"]]
              [Samples.track (py "en-GB") [py "good"; py "day"];
               Samples.track (py "en") [py "hello"]])
           [py "en"; py "en-US"] [] (py "en-GB") (py "good") [py "day"]).
  - vm_compute; reflexivity.
  - reflexivity.
  - reflexivity.
  - intros l [<-|[<-|[]]]; exists Samples.not_found; reflexivity.
  - reflexivity.
Defined.

(** X8.  Every result reports the id: the resolved id once the resolver has
    returned one, whatever happens afterwards, and null otherwise.  A
    successful result also carries the title "YouTube Video " followed by
    that id. *)
Theorem video_id_is_reported {E : Externals} (youtube_url : pyval) :
  exists r,
    outcome (get_transcript youtube_url) = inr r
    /\ field r (py "videoId")
       = Some (match extract_video_id youtube_url with
               | inr (Some vid) => PStr vid
               | _ => PNone
               end)
    /\ (field r (py "success") = Some (PBool true) ->
        exists vid,
          extract_video_id youtube_url = inr (Some vid)
          /\ field r (py "videoTitle")
             = Some (PStr (py "YouTube Video " ++ vid))).
Proof.
  exists (transcript_result youtube_url); split;
    [apply get_transcript_outcome|].
  unfold transcript_result.
  destruct (extract_video_id youtube_url) as [e|[vid|]] eqn:Hid;
    try (split; [reflexivity | discriminate]).
  destruct (resolved_id_nonempty _ Hid) as (c & vid' & ->).
  destruct (list_transcripts (c :: vid')) as [e|tl];
    [split; [reflexivity | discriminate]|].
  destruct (selection tl) as [e|[segs lang]];
    [split; [reflexivity | discriminate]|].
  split; [reflexivity|].
  intros _; exists (c :: vid'); split; reflexivity.
Qed.

(** X9.  The language tag of a successful result is one of the three
    preferred codes, or "en (auto-generated)", or the language code of the
    first track of the enumeration. *)
Theorem language_tag_origin {E : Externals} (youtube_url r : pyval)
    (vid : pystr) (tl : TranscriptList Segment) :
  extract_video_id youtube_url = inr (Some vid) ->
  list_transcripts vid = inr tl ->
  outcome (get_transcript youtube_url) = inr r ->
  field r (py "success") = Some (PBool true) ->
  exists lang,
    field r (py "language") = Some (PStr lang)
    /\ (In lang preferred_languages
        \/ lang = py "en (auto-generated)"
        \/ exists first rest,
             iter_transcripts tl = first :: rest
             /\ lang = language_code first).
Proof.
  intros Hid Hlist Hout Hsuccess.
  rewrite get_transcript_outcome, (transcript_result_resolved _ Hid Hlist)
    in Hout.
  assert (r = match selection tl with
              | inl e => fetch_failure e vid
              | inr (segments, lang) =>
                  success_result vid (format_transcript segments) lang
              end) as -> by congruence.
  clear Hout.
  assert (forall l, first_fetched tl preferred_languages
                    = Some l -> In (snd l) preferred_languages) as Hpref.
  { unfold preferred_languages; cbn [first_fetched].
    intros l.
    destruct (manual_attempt tl (py "en")); [|intros [= <-]; simpl; auto].
    destruct (manual_attempt tl (py "en-US")); [|intros [= <-]; simpl; auto].
    destruct (manual_attempt tl (py "en-GB")); [|intros [= <-]; simpl; auto].
    discriminate. }
  unfold selection, first_available in *.
  destruct (first_fetched tl preferred_languages) as [[[|seg segs] lang]|];
    try (exists lang; split;
         [reflexivity | left; exact (Hpref _ eq_refl)]; fail);
    (destruct (generated_attempt tl) as [e0|segs'];
     [|eexists; split; [reflexivity | right; left; reflexivity]]);
    (destruct (iter_transcripts tl) as [|first rest] eqn:Hiter;
     [discriminate Hsuccess|]);
    (destruct (fetch first) as [e|segs']; [discriminate Hsuccess|]);
    eexists; (split; [reflexivity | right; right; eauto]).
Qed.

Lemma language_tag_origin_witness :
  exists lang,
    field (success_result Samples.video_id (py "hallo welt") (py "de"))
      (py "language") = Some (PStr lang)
    /\ (In lang (preferred_languages)
        \/ lang = py "en (auto-generated)"
        \/ exists first rest,
             iter_transcripts
               (Samples.listing [Samples.track (py "de") [py "hallo welt"]]
                  [] [Samples.track (py "de") [py "hallo welt"]])
             = first :: rest
             /\ lang = language_code first).
Proof.
  apply (language_tag_origin (E := Samples.externals Samples.german_only)
           Samples.good_url (vid := Samples.video_id)).
  - vm_compute; reflexivity.
  - reflexivity.
  - vm_compute; reflexivity.
  - reflexivity.
Defined.

(** X10.  A run of [get_transcript] asks the provider for the list at most
    once, first, and only for an id the resolver returned; at most ten calls
    on the list and its tracks follow, none of them a new listing. *)
Theorem provider_call_budget {E : Externals} (youtube_url : pyval) :
  calls (get_transcript youtube_url) = []
  \/ exists vid rest,
       extract_video_id youtube_url = inr (Some vid)
       /\ calls (get_transcript youtube_url)
          = call_list_transcripts vid :: rest
       /\ forallb selection_call rest = true
       /\ List.length rest <= 10.
Proof.
  destruct (extract_video_id youtube_url) as [e|[vid|]] eqn:Hid;
    try (left; unfold get_transcript; rewrite Hid; reflexivity).
  right; exists vid.
  destruct (resolved_id_nonempty _ Hid) as (c & vid' & ->).
  destruct (list_transcripts (c :: vid')) as [e|tl] eqn:Hlist.
  - exists []; split; [reflexivity|]; split; [|simpl; split; [reflexivity|lia]].
    unfold get_transcript; rewrite Hid.
    unfold perform, bind, try_except; rewrite Hlist; reflexivity.
  - exists (calls (select_transcript tl)); split; [reflexivity|].
    split; [apply (get_transcript_calls_select _ Hid Hlist)|].
    apply select_transcript_calls.
Qed.

(** X11.  The word count of a successful result is 0 exactly when its text
    has no character that is not white space. *)
Theorem word_count_zero_iff_blank {E : Externals} (youtube_url r : pyval)
    (text : pystr) :
  outcome (get_transcript youtube_url) = inr r ->
  field r (py "success") = Some (PBool true) ->
  field r (py "transcript") = Some (PStr text) ->
  field r (py "wordCount") = Some (PInt 0) <-> forallb isspace text = true.
Proof.
  rewrite get_transcript_outcome; intros Hr Hsuccess Htext.
  assert (transcript_result youtube_url = r) as Hr' by congruence.
  clear Hr; subst r.
  destruct (transcript_result_cases youtube_url)
    as [H|[(e & v & H)|[(e & vid & H)|(vid & text' & lang & H)]]];
    rewrite H in *; try discriminate Hsuccess.
  assert (text' = text) as -> by (unfold success_result, field in Htext;
                                   cbn in Htext; congruence).
  rewrite <- count_token_starts_zero.
  fold (whitespace_tokens text); rewrite <- split_length.
  unfold success_result, field.
  change (dict_get _ (py "wordCount"))
    with (Some (PInt (Z.of_nat (List.length (split text))))).
  split.
  - intros [= Hz]; lia.
  - intros ->; reflexivity.
Qed.

Lemma word_count_zero_iff_blank_witness :
  field (success_result Samples.video_id (py "hello world foo")
           (py "en (auto-generated)")) (py "wordCount") = Some (PInt 0)
  <-> forallb isspace (py "hello world foo") = true.
Proof.
  apply (word_count_zero_iff_blank
           (E := Samples.externals Samples.generated_only) Samples.good_url).
  - vm_compute; reflexivity.
  - reflexivity.
  - reflexivity.
Defined.

(* ------------------------------------------------------------------ *)
(** ** Further properties of the request handler *)

Lemma py_eq_str_other (event : dict) (s : pystr) :
  (forall t, dict_get event (py "httpMethod") = Some (PStr t) -> t <> s) ->
  py_eq_str (dict_get_default event (py "httpMethod") PNone) s = false.
Proof.
  intros H; unfold dict_get_default.
  destruct (dict_get event (py "httpMethod")) as [[]|]; try reflexivity.
  simpl; destruct (PyStr.eqb s0 s) eqn:Heq; [|reflexivity].
  apply pystr_eqb_eq in Heq; destruct (H _ eq_refl Heq).
Qed.

(** X12.  An event whose method is absent, is not a string, or is a string
    other than "OPTIONS" and "POST" is answered 405 with the payload
    [{"error": "Method not allowed"}]; the body is not read and nothing is
    called. *)
Theorem other_method_is_rejected {E : Externals} (event : dict)
    (context : pyval) :
  other_method event ->
  handler event context
  = (inr (PDict
            [ (py "statusCode", PInt 405);
              (py "headers", PDict json_headers);
              (py "body",
               PStr (json_dumps
                       (PDict [ (py "error",
                                 PStr (py "Method not allowed")) ]))) ]),
     []).
Proof.
  intros H; apply other_method_is_405; apply py_eq_str_other;
    intros t Ht; apply (H t Ht).
Qed.

Lemma other_method_is_rejected_witness :
  handler (E := Samples.externals Samples.manual_en_GB)
    [ (py "httpMethod", PStr (py "GET")); (py "body", PStr Samples.url_body) ]
    PNone
  = (inr (PDict
            [ (py "statusCode", PInt 405);
              (py "headers", PDict json_headers);
              (py "body",
               PStr (@json_dumps (Samples.externals Samples.manual_en_GB)
                       (PDict [ (py "error",
                                 PStr (py "Method not allowed")) ]))) ]),
     []).
Proof.
  apply (other_method_is_rejected
           (E := Samples.externals Samples.manual_en_GB)).
  intros s [= <-]; split; discriminate.
Defined.

(** X13.  For a POST event whose body parses to an object with a youtubeUrl
    that counts as true, the handler calls [get_transcript] once with that
    value and relays its result: the body is the serialised result, the
    status is 200 when the result says success and 400 otherwise, and the
    calls of the run are those of [get_transcript]. *)
Theorem handler_relays_result {E : Externals} (event : dict)
    (context : pyval) (text : pystr) (fields : dict) (youtube_url : pyval) :
  dict_get event (py "httpMethod") = Some (PStr (py "POST")) ->
  dict_get_default event (py "body") (PStr (py "{}")) = PStr text ->
  json_loads text = inr (PDict fields) ->
  dict_get fields (py "youtubeUrl") = Some youtube_url ->
  truthy youtube_url = true ->
  exists (r : pyval) (success : bool),
    outcome (get_transcript youtube_url) = inr r
    /\ field r (py "success") = Some (PBool success)
    /\ handler event context
       = (inr (PDict
                 [ (py "statusCode",
                    PInt (if success then 200%Z else 400%Z));
                   (py "headers", PDict json_headers);
                   (py "body", PStr (json_dumps r)) ]),
          call_get_transcript youtube_url
            :: calls (get_transcript youtube_url)).
Proof.
  intros Hm Hbody Hloads Hurl Htruthy.
  rewrite (handler_post _ _ Hm), Hbody.
  unfold loads; rewrite Hloads, bind_lift_inr.
  unfold py_get at 1; rewrite bind_lift_inr.
  unfold dict_get_default; rewrite Hurl, Htruthy.
  cbv beta iota delta [negb].
  rewrite (M_eta (get_transcript youtube_url)), get_transcript_outcome.
  exists (transcript_result youtube_url).
  destruct (transcript_result_cases youtube_url)
    as [H|[(e & v & H)|[(e & vid & H)|(vid & txt & lang & H)]]];
    rewrite H;
    [exists false | exists false | exists false | exists true];
    (split; [reflexivity|]); (split; [reflexivity|]);
    unfold perform, bind, lift, ret, try_except, py_get; simpl;
    rewrite app_nil_r; reflexivity.
Qed.

Lemma handler_relays_result_witness :
  exists (r : pyval) (success : bool),
    outcome
      (get_transcript
         (E := MoreSamples.externals MoreSamples.bodies Samples.manual_en_GB)
         Samples.good_url)
    = inr r
    /\ field r (py "success") = Some (PBool success)
    /\ handler
         (E := MoreSamples.externals MoreSamples.bodies Samples.manual_en_GB)
         (Samples.post (py "url")) PNone
       = (inr (PDict
                 [ (py "statusCode",
                    PInt (if success then 200%Z else 400%Z));
                   (py "headers", PDict json_headers);
                   (py "body",
                    PStr (@json_dumps
                            (MoreSamples.externals MoreSamples.bodies
                               Samples.manual_en_GB) r)) ]),
          call_get_transcript Samples.good_url
            :: calls
                 (get_transcript
                    (E := MoreSamples.externals MoreSamples.bodies
                            Samples.manual_en_GB)
                    Samples.good_url)).
Proof.
  apply (handler_relays_result
           (E := MoreSamples.externals MoreSamples.bodies Samples.manual_en_GB)
           (Samples.post (py "url")) PNone (text := py "url")
           (fields := [ (py "youtubeUrl", Samples.good_url) ])
           (youtube_url := Samples.good_url));
    reflexivity.
Defined.

(** X14.  A youtubeUrl that counts as true but is not a string (a number, a
    list, an object) is not an internal error: the handler answers 400 with
    the failure result of [get_transcript], whose error is the message of the
    [re] error and whose videoId is null; the provider is not contacted. *)
Theorem non_string_url_is_bad_request {E : Externals} (event : dict)
    (context : pyval) (text : pystr) (fields : dict) (youtube_url : pyval) :
  dict_get event (py "httpMethod") = Some (PStr (py "POST")) ->
  dict_get_default event (py "body") (PStr (py "{}")) = PStr text ->
  json_loads text = inr (PDict fields) ->
  dict_get fields (py "youtubeUrl") = Some youtube_url ->
  truthy youtube_url = true ->
  (forall s, youtube_url <> PStr s) ->
  handler event context
  = (inr (PDict
            [ (py "statusCode", PInt 400);
              (py "headers", PDict json_headers);
              (py "body",
               PStr (json_dumps
                       (PDict
                          [ (py "success", PBool false);
                            (py "error",
                             PStr (exn_str (re_type_error youtube_url)));
                            (py "videoId", PNone) ]))) ]),
     [call_get_transcript youtube_url]).
Proof.
  intros Hm Hbody Hloads Hurl Htruthy Hstr.
  rewrite (handler_post _ _ Hm), Hbody.
  unfold loads; rewrite Hloads, bind_lift_inr.
  unfold py_get at 1; rewrite bind_lift_inr.
  unfold dict_get_default; rewrite Hurl, Htruthy.
  cbv beta iota delta [negb].
  assert (get_transcript youtube_url
          = (inr (outer_failure (re_type_error youtube_url) None), [])) as ->.
  { destruct youtube_url; try reflexivity. destruct (Hstr _ eq_refl). }
  reflexivity.
Qed.

Lemma non_string_url_is_bad_request_witness :
  handler (E := MoreSamples.externals MoreSamples.bodies Samples.manual_en_GB)
    (Samples.post (py "number")) PNone
  = (inr (PDict
            [ (py "statusCode", PInt 400);
              (py "headers", PDict json_headers);
              (py "body",
               PStr (@json_dumps
                       (MoreSamples.externals MoreSamples.bodies
                          Samples.manual_en_GB)
                       (PDict
                          [ (py "success", PBool false);
                            (py "error",
                             PStr (py "expected string or bytes-like object"));
                            (py "videoId", PNone) ]))) ]),
     [call_get_transcript (PInt 5)]).
Proof.
  apply (non_string_url_is_bad_request
           (E := MoreSamples.externals MoreSamples.bodies Samples.manual_en_GB)
           (Samples.post (py "number")) PNone (text := py "number")
           (fields := [ (py "youtubeUrl", PInt 5) ])
           (youtube_url := PInt 5));
    try reflexivity.
  intros s; discriminate.
Defined.

(** X15.  Any youtubeUrl that counts as false, not only the empty string
    (null, false, 0, an empty list or object), is answered 400 with
    [{"error": "youtubeUrl is required"}], and nothing is called. *)
Theorem falsy_url_is_bad_request {E : Externals} (event : dict)
    (context : pyval) (text : pystr) (fields : dict) (youtube_url : pyval) :
  dict_get event (py "httpMethod") = Some (PStr (py "POST")) ->
  dict_get_default event (py "body") (PStr (py "{}")) = PStr text ->
  json_loads text = inr (PDict fields) ->
  dict_get fields (py "youtubeUrl") = Some youtube_url ->
  truthy youtube_url = false ->
  handler event context
  = (inr (PDict
            [ (py "statusCode", PInt 400);
              (py "headers", PDict json_headers);
              (py "body",
               PStr (json_dumps
                       (PDict [ (py "error",
                                 PStr (py "youtubeUrl is required")) ]))) ]),
     []).
Proof.
  intros Hm Hbody Hloads Hurl Htruthy.
  rewrite (handler_post _ _ Hm), Hbody.
  unfold loads; rewrite Hloads, bind_lift_inr.
  unfold py_get; rewrite bind_lift_inr.
  unfold dict_get_default; rewrite Hurl, Htruthy; reflexivity.
Qed.

Lemma falsy_url_is_bad_request_witness :
  handler (E := MoreSamples.externals MoreSamples.bodies Samples.manual_en_GB)
    (Samples.post (py "null")) PNone
  = (inr (PDict
            [ (py "statusCode", PInt 400);
              (py "headers", PDict json_headers);
              (py "body",
               PStr (@json_dumps
                       (MoreSamples.externals MoreSamples.bodies
                          Samples.manual_en_GB)
                       (PDict [ (py "error",
                                 PStr (py "youtubeUrl is required")) ]))) ]),
     []).
Proof.
  apply (falsy_url_is_bad_request
           (E := MoreSamples.externals MoreSamples.bodies Samples.manual_en_GB)
           (Samples.post (py "null")) PNone (text := py "null")
           (fields := [ (py "youtubeUrl", PNone) ]) (youtube_url := PNone));
    reflexivity.
Defined.

(** X16.  For a POST event the status is 500 exactly when the body cannot be
    used: [json.loads] raises on it (it is not a string, or not valid JSON),
    or it parses to something that is not an object.  In that case nothing is
    called. *)
Theorem internal_error_iff_body_unusable {E : Externals} (event : dict)
    (context : pyval) :
  dict_get event (py "httpMethod") = Some (PStr (py "POST")) ->
  exists resp status_code,
    outcome (handler event context) = inr resp
    /\ field resp (py "statusCode") = Some (PInt status_code)
    /\ (status_code = 500%Z <->
        (exists e,
            loads (dict_get_default event (py "body") (PStr (py "{}")))
            = inl e)
        \/ (exists v,
              loads (dict_get_default event (py "body") (PStr (py "{}")))
              = inr v
              /\ forall d, v <> PDict d))
    /\ (status_code = 500%Z -> calls (handler event context) = []).
Proof.
  intros Hm; rewrite (handler_post _ _ Hm).
  destruct (loads (dict_get_default event (py "body") (PStr (py "{}"))))
    as [e|v].
  { rewrite bind_lift_inl, try_except_raised.
    eexists; exists 500%Z; repeat split; eauto. }
  rewrite bind_lift_inr.
  assert (forall d, v = PDict d ->
            exists resp status_code,
              outcome
                (try_except
                   (youtube_url <- lift (py_get v (py "youtubeUrl")) ;;
                    if negb (truthy youtube_url) then
                      ret (response 400 json_headers
                             (error_payload (py "youtubeUrl is required")))
                    else
                      result <-
                        (_ <- perform (call_get_transcript youtube_url)
                                (inr tt) ;;
                         get_transcript youtube_url) ;;
                      success <- lift (py_get result (py "success")) ;;
                      ret (response (if truthy success then 200%Z else 400%Z)
                             json_headers result))
                   (fun _ =>
                      ret (response 500 json_headers
                             (error_payload (py "Internal server error")))))
              = inr resp
              /\ field resp (py "statusCode") = Some (PInt status_code)
              /\ status_code <> 500%Z) as Hdict.
  { intros d ->; unfold py_get at 1; rewrite bind_lift_inr.
    rewrite outcome_try_except.
    destruct (negb (truthy (dict_get_default d (py "youtubeUrl") PNone))).
    - eexists; exists 400%Z; repeat split; discriminate.
    - destruct (handler_after_get_transcript
                  (dict_get_default d (py "youtubeUrl") PNone))
        as (status & Hst & ->).
      eexists; exists status; repeat split.
      destruct Hst as [-> | ->]; discriminate. }
  destruct v;
    try (unfold py_get; rewrite bind_lift_inl, try_except_raised;
         eexists; exists 500%Z; repeat split; auto;
         right; eexists; split; [reflexivity | intros d0; discriminate]).
  destruct (Hdict d eq_refl) as (resp & status & Hout & Hst & Hne).
  exists resp, status; cbv zeta; repeat split; auto; try contradiction.
  intros [[e He]|(v & Hv & Hnd)]; [discriminate|].
  injection Hv as <-; destruct (Hnd d eq_refl).
Qed.

Lemma internal_error_iff_body_unusable_witness :
  exists resp status_code,
    outcome
      (handler
         (E := MoreSamples.externals MoreSamples.bodies Samples.manual_en_GB)
         (Samples.post (py "array")) PNone)
    = inr resp
    /\ field resp (py "statusCode") = Some (PInt status_code)
    /\ (status_code = 500%Z <->
        (exists e,
            loads
              (E := MoreSamples.externals MoreSamples.bodies
                      Samples.manual_en_GB)
              (dict_get_default (Samples.post (py "array")) (py "body")
                 (PStr (py "{}")))
            = inl e)
        \/ (exists v,
              loads
                (E := MoreSamples.externals MoreSamples.bodies
                        Samples.manual_en_GB)
                (dict_get_default (Samples.post (py "array")) (py "body")
                   (PStr (py "{}")))
              = inr v
              /\ forall d, v <> PDict d))
    /\ (status_code = 500%Z ->
        calls
          (handler
             (E := MoreSamples.externals MoreSamples.bodies
                     Samples.manual_en_GB)
             (Samples.post (py "array")) PNone)
        = []).
Proof.
  apply (internal_error_iff_body_unusable
           (E := MoreSamples.externals MoreSamples.bodies Samples.manual_en_GB)
           (Samples.post (py "array")) PNone).
  reflexivity.
Defined.

(** X17.  A POST event whose body is present but not a string, such as a
    null body, is answered 500, not 400; nothing is called. *)
Theorem non_string_body_is_internal_error {E : Externals} (event : dict)
    (context v : pyval) :
  dict_get event (py "httpMethod") = Some (PStr (py "POST")) ->
  dict_get event (py "body") = Some v ->
  (forall s, v <> PStr s) ->
  handler event context
  = (inr (PDict
            [ (py "statusCode", PInt 500);
              (py "headers", PDict json_headers);
              (py "body",
               PStr (json_dumps
                       (PDict [ (py "error",
                                 PStr (py "Internal server error")) ]))) ]),
     []).
Proof.
  intros Hm Hbody Hv; rewrite (handler_post _ _ Hm).
  unfold dict_get_default; rewrite Hbody.
  destruct v; try (destruct (Hv _ eq_refl));
    unfold loads; rewrite bind_lift_inl, try_except_raised; reflexivity.
Qed.

Lemma non_string_body_is_internal_error_witness :
  handler (E := Samples.externals Samples.manual_en_GB)
    [ (py "httpMethod", PStr (py "POST")); (py "body", PNone) ] PNone
  = (inr (PDict
            [ (py "statusCode", PInt 500);
              (py "headers", PDict json_headers);
              (py "body",
               PStr (@json_dumps (Samples.externals Samples.manual_en_GB)
                       (PDict [ (py "error",
                                 PStr (py "Internal server error")) ]))) ]),
     []).
Proof.
  apply (non_string_body_is_internal_error
           (E := Samples.externals Samples.manual_en_GB)
           [ (py "httpMethod", PStr (py "POST")); (py "body", PNone) ]
           PNone (v := PNone)).
  - reflexivity.
  - reflexivity.
  - intros s; discriminate.
Defined.

(** X18.  Every response but the preflight one declares
    [Content-Type: application/json]; the preflight response carries the
    three cross-origin headers and nothing else. *)
Theorem content_type_unless_preflight {E : Externals} (event : dict)
    (context : pyval) :
  exists resp hs,
    outcome (handler event context) = inr resp
    /\ field resp (py "headers") = Some (PDict hs)
    /\ if py_eq_str (dict_get_default event (py "httpMethod") PNone)
            (py "OPTIONS")
       then hs = cors_headers /\ dict_get hs (py "Content-Type") = None
       else dict_get hs (py "Content-Type")
            = Some (PStr (py "application/json")).
Proof.
  unfold handler.
  destruct (py_eq_str (dict_get_default event (py "httpMethod") PNone)
              (py "OPTIONS")).
  { eexists; exists cors_headers; repeat split. }
  destruct (negb (py_eq_str (dict_get_default event (py "httpMethod") PNone)
                    (py "POST"))).
  { eexists; exists json_headers; repeat split. }
  rewrite outcome_try_except, outcome_bind, outcome_lift.
  destruct (loads (dict_get_default event (py "body") (PStr (py "{}"))))
    as [e|body].
  { eexists; exists json_headers; repeat split. }
  rewrite outcome_bind, outcome_lift.
  destruct (py_get body (py "youtubeUrl")) as [e|youtube_url].
  { eexists; exists json_headers; repeat split. }
  destruct (negb (truthy youtube_url)).
  { eexists; exists json_headers; repeat split. }
  cbv zeta.
  destruct (handler_after_get_transcript youtube_url) as (status & Hst & ->).
  eexists; exists json_headers; repeat split.
Qed.

(** X19.  Once the listing has succeeded the result is a success exactly
    when one of the three options yields a transcript: the loop over the
    preferred languages ends with a transcript that has content, or the
    generated English transcript can be fetched, or the first track of the
    enumeration can be fetched.  Later tracks of the enumeration play no
    part. *)
Theorem success_iff_some_option {E : Externals} (youtube_url : pyval)
    (vid : pystr) (tl : TranscriptList Segment) :
  extract_video_id youtube_url = inr (Some vid) ->
  list_transcripts vid = inr tl ->
  exists r,
    outcome (get_transcript youtube_url) = inr r
    /\ (field r (py "success") = Some (PBool true) <->
        (exists seg segs lang,
            outcome (manual_loop tl preferred_languages)
            = inr (Some (seg :: segs, lang)))
        \/ (exists segments, generated_attempt tl = inr segments)
        \/ (exists first rest segments,
              iter_transcripts tl = first :: rest
              /\ fetch first = inr segments)).
Proof.
  intros Hid Hlist; eexists; split; [apply get_transcript_outcome|].
  rewrite (transcript_result_resolved _ Hid Hlist), manual_loop_outcome.
  unfold selection, first_available.
  destruct (first_fetched tl preferred_languages) as [[[|seg segs] lang]|].
  2: { split; [intros _; left; eauto | reflexivity]. }
  all: destruct (generated_attempt tl) as [e0|segs'];
    [|split; [intros _; right; left; eauto | reflexivity]];
    (destruct (iter_transcripts tl) as [|first rest];
     [split; [discriminate|];
      intros [(? & ? & ? & [=])|[(? & [=])|(? & ? & ? & [=] & _)]]|]);
    destruct (fetch first) as [e|segs'] eqn:Hfetch;
    try (split; [intros _; right; right; eauto | reflexivity]);
    (split; [discriminate|]);
    intros [(? & ? & ? & [=])|[(? & [=])|(f & ? & ? & [= <- _] & Hf)]];
    rewrite Hfetch in Hf; discriminate Hf.
Qed.

Lemma success_iff_some_option_witness :
  exists r,
    outcome
      (get_transcript (E := Samples.externals MoreSamples.broken_only)
         Samples.good_url)
    = inr r
    /\ (field r (py "success") = Some (PBool true) <->
        (exists seg segs lang,
            outcome
              (manual_loop (E := Samples.externals MoreSamples.broken_only)
                 (Samples.listing [] []
                    [ {| language_code := py "de";
                         fetch := inl MoreSamples.fetch_error |} ])
                 preferred_languages)
            = inr (Some (seg :: segs, lang)))
        \/ (exists segments,
              generated_attempt
                (E := Samples.externals MoreSamples.broken_only)
                (Samples.listing [] []
                   [ {| language_code := py "de";
                        fetch := inl MoreSamples.fetch_error |} ])
              = inr segments)
        \/ (exists first rest segments,
              iter_transcripts
                (Samples.listing [] []
                   [ {| language_code := py "de";
                        fetch := inl MoreSamples.fetch_error |} ])
              = first :: rest
              /\ fetch first = inr segments)).
Proof.
  apply (success_iff_some_option
           (E := Samples.externals MoreSamples.broken_only)
           Samples.good_url (vid := Samples.video_id)).
  - vm_compute; reflexivity.
  - reflexivity.
Defined.
